(** * Knowledge-base ingestion and retrieval: [EmbeddedSystemsTools]

    A shallow embedding of [src/tools/base.py] (class
    [EmbeddedSystemsTools]) and of the start-up decision of
    [src/agent/agent.py] ([_auto_ingest_on_startup]).

    Conventions of the embedding.
    - A Python [str] is a [string]; one [ascii] stands for one character
      (code points 0..255), so [String.length] is Python's [len].
    - A Python exception is the [Raise] branch of [result]; the text it
      carries is [str(e)].
    - The instance attributes [vectorstore] and [ingested_files] form the
      record [Tools]; methods that touch them run in the monad [M], which
      threads the instance and keeps every mutation made before a raise.
    - [ingested_files] is a Python dict keyed by file name: a [gmap].
    - The text splitter and the vector store are third-party objects; they
      are interfaces here ([TextSplitter], [CorpusIndex]).
    - A [pathlib.Path] together with what the file system answers about it
      is a [File] (resp. [Dir]) record; [stat], [open] and the PDF loader
      may raise, the other queries ([exists], [is_file], [is_dir], [glob],
      [resolve], [name], [suffix]) are plain answers. The walk of
      [ingest_directory] makes its queries outside any [try]; it is given a
      second time, with queries that can raise, in [Walk].
    - [asyncio] is the one fact the start-up depends on: whether an event
      loop is already running ([EventLoop]).
    - A float is a rational ([Q]): distances, sizes in MB, the 0.05 of the
      start-up tolerance; where the code prints a float, the rounding of the
      float operations is written out ([PyFormat]).
    - Progress output ([print]) is left out. *)

From Stdlib Require Import Ascii String QArith Qround Qabs Qpower Lqa.
From stdpp Require Import gmap strings list pretty sorting.

Local Open Scope string_scope.
Local Open Scope nat_scope.

#[local] Set Warnings "-clear-no-such-hyp".

(** ** Python strings *)

Module PyStr.

(** [str.isspace] on the code points below 256. *)
Definition is_space (c : ascii) : bool :=
  let n := nat_of_ascii c in
  ((9 <=? n) && (n <=? 13)) || ((28 <=? n) && (n <=? 32))
  || (n =? 133) || (n =? 160).

Fixpoint lstrip (s : string) : string :=
  match s with
  | String c s' => if is_space c then lstrip s' else s
  | EmptyString => EmptyString
  end.

Definition rstrip (s : string) : string :=
  String.rev (lstrip (String.rev s)).

(** [s.strip()] *)
Definition strip (s : string) : string := rstrip (lstrip s).

(** [str.lower] on one character: A-Z and the Latin-1 capitals. *)
Definition lower_char (c : ascii) : ascii :=
  let n := nat_of_ascii c in
  if ((65 <=? n) && (n <=? 90))
     || ((192 <=? n) && (n <=? 222) && negb (n =? 215))
  then ascii_of_nat (n + 32) else c.

(** [s.lower()] *)
Fixpoint lower (s : string) : string :=
  match s with
  | String c s' => String (lower_char c) (lower s')
  | EmptyString => EmptyString
  end.

(** [s.startswith(p)] *)
Fixpoint startswith (p s : string) : bool :=
  match p, s with
  | EmptyString, _ => true
  | String a p', String b s' => if Ascii.eqb a b then startswith p' s' else false
  | String _ _, EmptyString => false
  end.

(** [needle in hay] *)
Fixpoint contains (needle hay : string) : bool :=
  startswith needle hay ||
  match hay with
  | String _ hay' => contains needle hay'
  | EmptyString => false
  end.

(** [s[:n]] *)
Definition take (n : nat) (s : string) : string := substring 0 n s.

(** [str(n)] for a non-negative integer. *)
Definition of_nat (n : nat) : string := pretty n.

End PyStr.

(** ** Exceptions *)

Inductive result (A : Type) : Type :=
| Ok (a : A)
| Raise (msg : string).
Arguments Ok {A} a.
Arguments Raise {A} msg.

Definition is_ok {A} (r : result A) : bool :=
  match r with Ok _ => true | Raise _ => false end.

(** ** The extension tables *)

(** [EmbeddedSystemsTools.SUPPORTED_EXTENSIONS], in the order of the dict
    literal. *)
Definition SUPPORTED_EXTENSIONS : list (string * string) :=
  [ (".pdf", "PDF Document"); (".txt", "Text File"); (".md", "Markdown");
    (".adoc", "AsciiDoc");
    (".ino", "Arduino Code"); (".pde", "Processing Code");
    (".cpp", "C++ Code"); (".c", "C Code"); (".h", "Header File");
    (".hpp", "C++ Header");
    (".py", "Python Code"); (".java", "Java Code");
    (".json", "JSON Data"); (".csv", "CSV Data"); (".yaml", "YAML Config");
    (".yml", "YAML Config"); (".properties", "Properties Config");
    (".sh", "Shell Script");
    (".sb3", "Scratch Project"); (".jpg", "Image"); (".png", "Image");
    (".svg", "Vector Image"); (".webm", "Video"); (".gz", "Archive");
    (".tar", "Archive"); (".jar", "Java Archive"); (".fzz", "Fritzing");
    (".vlw", "Font"); (".ttf", "Font") ].

(** [EmbeddedSystemsTools.SKIP_EXTENSIONS] *)
Definition SKIP_EXTENSIONS : list string :=
  [ ".sb3"; ".jpg"; ".png"; ".svg"; ".webm";
    ".gz"; ".tar"; ".jar"; ".fzz"; ".vlw"; ".ttf";
    ".idx"; ".pack"; ".rev" ].

(** [SUPPORTED_EXTENSIONS.get(ext)] *)
Fixpoint dict_get (d : list (string * string)) (k : string) : option string :=
  match d with
  | [] => None
  | (k', v) :: d' => if String.eqb k' k then Some v else dict_get d' k
  end.

(** [ext in self.SUPPORTED_EXTENSIONS] *)
Definition in_supported (ext : string) : bool :=
  match dict_get SUPPORTED_EXTENSIONS ext with Some _ => true | None => false end.

(** [ext in self.SKIP_EXTENSIONS] *)
Definition in_skip (ext : string) : bool :=
  bool_decide (ext ∈ SKIP_EXTENSIONS).

(** [self.SUPPORTED_EXTENSIONS[ext]], evaluated only where [ext] is a key. *)
Definition supported_label (ext : string) : result string :=
  match dict_get SUPPORTED_EXTENSIONS ext with
  | Some v => Ok v
  | None => Raise ("'" ++ ext ++ "'")
  end.

(** The two literal lists [_load_file] dispatches on. *)
Definition TEXT_DOC_EXTENSIONS : list string := [ ".txt"; ".md"; ".adoc" ].
Definition CODE_EXTENSIONS : list string :=
  [ ".ino"; ".pde"; ".cpp"; ".c"; ".h"; ".hpp"; ".py"; ".java";
    ".json"; ".csv"; ".yaml"; ".yml"; ".properties"; ".sh" ].

(** The kind of a file as [_load_file] decides it, branch by branch: the
    skip set is looked at first, then the supported table, then the
    extension lists of the three loaders. *)
Inductive FileKind : Type :=
| BinarySkip | Unsupported | PDF | TextDoc | CodeOrConfig.

Definition classify (ext : string) : FileKind :=
  if in_skip ext then BinarySkip
  else if negb (in_supported ext) then Unsupported
  else if String.eqb ext ".pdf" then PDF
  else if bool_decide (ext ∈ TEXT_DOC_EXTENSIONS) then TextDoc
  else if bool_decide (ext ∈ CODE_EXTENSIONS) then CodeOrConfig
  else Unsupported.

(** The order of the same two tests in [add_knowledge]: the supported
    table first, the skip set second. *)
Inductive Gate : Type :=
| GateUnsupported | GateBinary | GatePass.

Definition gate (ext : string) : Gate :=
  if negb (in_supported ext) then GateUnsupported
  else if in_skip ext then GateBinary
  else GatePass.

(** ** Documents and paths *)

(** A metadata value: the code stores strings and one integer. *)
Inductive MetaVal : Type :=
| MStr (s : string)
| MInt (n : nat).

(** [langchain_core.documents.Document] *)
Record Document : Type := mkDocument {
  page_content : string;
  metadata : gmap string MetaVal
}.

(** A [pathlib.Path] with the answers of the file system. *)
Record File : Type := mkFile {
  p_str : string;                      (* str(file_path) *)
  p_name : string;                     (* file_path.name *)
  p_suffix : string;                   (* file_path.suffix *)
  p_resolve : string;                  (* str(file_path.resolve()) *)
  p_exists : bool;                     (* file_path.exists() *)
  p_is_file : bool;                    (* file_path.is_file() *)
  p_stat_size : result nat;            (* file_path.stat().st_size *)
  p_read : result string;              (* open(file_path, 'r', encoding='utf-8',
                                          errors='ignore').read() *)
  p_pdf_load : result (list Document)  (* PyPDFLoader(str(file_path)).load() *)
}.

(** A directory path: [dir_path.glob(pattern)] lists files and directories.
    [d_str] is the path as the caller gave it, taken to be in the form
    [str(Path(...))] gives it back. *)
Record Dir : Type := mkDir {
  d_str : string;
  d_exists : bool;
  d_is_dir : bool;
  d_glob : string -> list File
}.

(** ** The third-party collaborators *)

(** [RecursiveCharacterTextSplitter.split_documents] *)
Class TextSplitter : Type := {
  split_documents : list Document -> result (list Document)
}.

(** The Chroma store: a mutable object, so a call hands back the store
    even when it raises. Scores are distances, taken as rationals. *)
Class CorpusIndex (VS : Type) : Type := {
  add_documents : list Document -> VS -> result unit * VS;
  similarity_search_with_score :
    string -> Z -> VS -> result (list (Document * Q))
}.

(** [asyncio], as far as the start-up of the agent depends on it: whether
    an event loop is already running in the thread that builds the agent
    (it is when the agent is built from [main.py], inside
    [asyncio.run(main())]). *)
Class EventLoop : Type := {
  loop_running : bool
}.

(** ** The instance and its monad *)

(** One value of [self.ingested_files]. *)
Record IngestRecord : Type := mkIngestRecord {
  r_path : string;
  r_type : string;
  r_chunks : nat;
  r_size : nat
}.

Record Tools (VS : Type) : Type := mkTools {
  vectorstore : option VS;
  ingested_files : gmap string IngestRecord
}.
Arguments mkTools {VS} _ _.
Arguments vectorstore {VS} _.
Arguments ingested_files {VS} _.

#[global] Instance result_ret : MRet result := fun A a => Ok a.
#[global] Instance result_bind : MBind result := fun A B k r =>
  match r with
  | Ok a => k a
  | Raise e => Raise e
  end.

(** [try: r  except Exception as e: h e] on a pure computation. *)
Definition catch {A} (r : result A) (h : string -> result A) : result A :=
  match r with
  | Ok a => Ok a
  | Raise e => h e
  end.

Definition M (VS A : Type) : Type := Tools VS -> result A * Tools VS.

#[global] Instance M_ret VS : MRet (M VS) := fun A a t => (Ok a, t).
#[global] Instance M_bind VS : MBind (M VS) := fun A B k m t =>
  match m t with
  | (Ok a, t') => k a t'
  | (Raise e, t') => (Raise e, t')
  end.

Definition lift {VS A} (r : result A) : M VS A := fun t => (r, t).

(** [try: m  except Exception as e: h e] *)
Definition try_except {VS A} (m : M VS A) (h : string -> M VS A) : M VS A :=
  fun t =>
    match m t with
    | (Ok a, t') => (Ok a, t')
    | (Raise e, t') => h e t'
    end.

Definition get_vectorstore {VS} : M VS (option VS) :=
  fun t => (Ok (vectorstore t), t).

(** [self.vectorstore.add_documents(texts)] on the store [vs]. *)
Definition call_add_documents {VS} {index : CorpusIndex VS}
    (texts : list Document) (vs : VS) : M VS unit :=
  fun t =>
    let '(r, vs') := add_documents texts vs in
    (r, mkTools (Some vs') (ingested_files t)).

(** [self.ingested_files[key] = rec] *)
Definition set_ingested {VS} (key : string) (rec : IngestRecord) : M VS unit :=
  fun t => (Ok tt, mkTools (vectorstore t) (<[key := rec]> (ingested_files t))).

(** ** [_load_file] *)

(** Python truthiness of a list. *)
Definition truthy {A} (l : list A) : bool :=
  match l with [] => false | _ :: _ => true end.

(** [docs if docs else None] *)
Definition docs_or_none (docs : list Document) : option (list Document) :=
  if truthy docs then Some docs else None.

(** [len(doc.page_content.strip()) < n] *)
Definition short_text (n : nat) (content : string) : bool :=
  String.length (PyStr.strip content) <? n.

(** The PDF branch, its own [try]/[except] included. [None] is the early
    [return None]; [Some docs] falls through to the last line. *)
Definition load_pdf (file_path : File) : result (option (list Document)) :=
  catch
    (size ← p_stat_size file_path;
     if size <? 100 then Ok None
     else
       docs ← p_pdf_load file_path;
       if negb (truthy docs)
          || forallb (fun doc => short_text 50 (page_content doc)) docs
       then Ok None
       else Ok (Some docs))
    (fun _ => Ok None).

(** The two text branches: read, drop near-empty content, wrap. *)
Definition load_text (file_path : File) : result (option (list Document)) :=
  content ← p_read file_path;
  if short_text 10 content then Ok None
  else Ok (Some [ mkDocument content
                    {[ "source" := MStr (p_str file_path) ]} ]).

Definition _load_file_body (file_path : File) : result (option (list Document)) :=
  let file_ext := PyStr.lower (p_suffix file_path) in
  if in_skip file_ext then Ok None
  else if negb (in_supported file_ext) then Ok None
  else
    branch ←
      (if String.eqb file_ext ".pdf" then load_pdf file_path
       else if bool_decide (file_ext ∈ TEXT_DOC_EXTENSIONS) then load_text file_path
       else if bool_decide (file_ext ∈ CODE_EXTENSIONS) then load_text file_path
       else Ok None);
    match branch with
    | None => Ok None
    | Some docs => Ok (docs_or_none docs)
    end.

Definition _load_file (file_path : File) : option (list Document) :=
  match _load_file_body file_path with
  | Ok r => r
  | Raise _ => None
  end.

(** ** Number formatting for [search_knowledge] *)

Module PyFormat.

(** Round a non-negative rational to the nearest integer, ties to even. *)
Definition round_half_even (y : Q) : Z :=
  let q := Qfloor y in
  let r := (y - inject_Z q)%Q in
  match (r ?= 1 # 2)%Q with
  | Lt => q
  | Gt => (q + 1)%Z
  | Eq => if Z.even q then q else (q + 1)%Z
  end.

Definition two_digits (n : Z) : string :=
  if (n <? 10)%Z then "0" ++ pretty n else pretty n.

(** [f"{x:.2f}"] *)
Definition fixed2 (x : Q) : string :=
  let n := round_half_even (Qabs x * 100)%Q in
  (if Qlt_le_dec x 0 then "-" else "")
  ++ pretty (n / 100)%Z ++ "." ++ two_digits (n mod 100)%Z.

(** [2 ^ e], for an exponent of either sign. *)
Definition pow2 (e : Z) : Q := (2 ^ e)%Q.

(** [floor (log2 x)] of a positive rational. *)
Definition ilog2 (x : Q) : Z :=
  let e := (Z.log2 (Qnum x) - Z.log2 (Zpos (Qden x)))%Z in
  if Qle_bool (pow2 e) x then e else (e - 1)%Z.

(** A non-negative rational rounded to a multiple of [2 ^ q], ties to
    even. *)
Definition at_exponent (q : Z) (a : Q) : Q :=
  (inject_Z (round_half_even (a / pow2 q)) * pow2 q)%Q.

(** The exponent of the last place of the binary64 numbers around a
    positive [a]: 53 significant bits, subnormal below [2 ^ -1022]. *)
Definition last_place (a : Q) : Z := Z.max (ilog2 a - 52) (-1074).

(** The result of a float operation whose exact result is [x]: the nearest
    binary64 number, ties to even; the magnitude is not bounded here, see
    [overflows]. *)
Definition to_double (x : Q) : Q :=
  if Qeq_bool x 0 then 0%Q
  else
    let a := Qabs x in
    let v := at_exponent (last_place a) a in
    if Qlt_le_dec x 0 then (- v)%Q else v.

(** A rounded result that binary64 cannot hold: the operation gives an
    infinity. *)
Definition overflows (v : Q) : bool := Qle_bool (pow2 1024) (Qabs v).

(** The float the format [.2%] prints for the float nearest to [x]: that
    float times 100, rounded once more. *)
Definition percent_value (x : Q) : Q := to_double (to_double x * 100)%Q.

(** [f"{v:.2%}"] for the float [v] nearest to [x], so that
    [percent2 (a - b)] is the text of [f"{(a - b):.2%}"] for floats [a] and
    [b]: the format multiplies the float by 100, which rounds once more,
    and prints the product with two decimals and a percent sign. *)
Definition percent2 (x : Q) : string :=
  let p := percent_value x in
  (if Qlt_le_dec x 0 then "-" else "")
  ++ (if overflows p then "inf" else fixed2 (Qabs p)) ++ "%".

End PyFormat.

(** ** The methods of [EmbeddedSystemsTools] *)

(** One entry of the list [search_knowledge] returns: a hit with its six
    keys, or the two-key notice of the unavailable and the error path. *)
Inductive SearchResult : Type :=
| Hit (content : string) (source_file file_type source_path : MetaVal)
      (relevance_score : string) (chunk_size : MetaVal)
| Notice (content : string) (source : string).

(** What [scan_directory] returns: the error dict or the statistics. *)
Record ScanStats : Type := mkScanStats {
  directory : string;
  files_by_type : gmap string (nat * Q);
  total_files : nat;
  total_size_mb : Q
}.

Inductive ScanResult : Type :=
| ScanError (error : string)
| ScanOk (stats : ScanStats).

(** The local variables of the second loop of [ingest_directory]. *)
Record Batch : Type := mkBatch {
  success_count : nat;
  fail_count : nat;
  errors : list string;
  processed_files : gset string
}.

Section Methods.

Context {VS : Type} {index : CorpusIndex VS} {splitter : TextSplitter}.

(** The metadata loop of [add_knowledge] on one chunk. *)
Definition stamp (file_path : File) (label : string) (doc : Document) : Document :=
  mkDocument (page_content doc)
    (<["chunk_size" := MInt (String.length (page_content doc))]>
     (<["file_type" := MStr label]>
      (<["source_path" := MStr (p_str file_path)]>
       (<["source_file" := MStr (p_name file_path)]> (metadata doc))))).

(** The body of the [try] block of [add_knowledge]. *)
Definition add_knowledge_body (file_path : File) : M VS (bool * string) :=
  if negb (p_exists file_path) then
    mret (false, "File not found: " ++ p_str file_path)
  else
    let file_ext := PyStr.lower (p_suffix file_path) in
    if negb (in_supported file_ext) then
      mret (false, "Unsupported file type: " ++ file_ext)
    else if in_skip file_ext then
      mret (false, "Binary file skipped: " ++ file_ext)
    else
      match _load_file file_path with
      | None | Some [] =>
          mret (false, "No content extracted from " ++ p_name file_path)
      | Some documents =>
          texts ← lift (split_documents documents);
          if negb (truthy texts) then
            mret (false, "No text chunks created from " ++ p_name file_path)
          else
            label ← lift (supported_label file_ext);
            let texts := stamp file_path label <$> texts in
            store ← get_vectorstore;
            match store with
            | Some vs =>
                call_add_documents texts vs;;
                size ← lift (p_stat_size file_path);
                set_ingested (p_name file_path)
                  (mkIngestRecord (p_str file_path) label (length texts) size);;
                mret (true,
                      "✅ Added " ++ PyStr.of_nat (length texts)
                      ++ " chunks from " ++ p_name file_path
                      ++ " (" ++ label ++ ")")
            | None => mret (false, "Vector store not available")
            end
      end.

Definition add_knowledge (file_path : File) : M VS (bool * string) :=
  try_except (add_knowledge_body file_path)
    (fun e => mret (false, "Error: " ++ PyStr.take 100 e)).

(** The first loop of [ingest_directory]: one path of the glob. *)
Definition collect (acc : nat * list File) (file_path : File) : nat * list File :=
  let '(skipped_count, all_files) := acc in
  if negb (p_is_file file_path) then acc
  else
    let file_ext := PyStr.lower (p_suffix file_path) in
    if in_skip file_ext then (S skipped_count, all_files)
    else if negb (in_supported file_ext) then (S skipped_count, all_files)
    else (skipped_count, (all_files ++ [file_path])%list).

(** The files the second loop runs over. *)
Definition candidates (dir_path : Dir) (recursive : bool) : list File :=
  let file_pattern := if recursive then "**/*" else "*" in
  snd (foldl collect (0, []) (d_glob dir_path file_pattern)).

(** The second loop of [ingest_directory]: one candidate. *)
Definition ingest_one (b : Batch) (file_path : File) : M VS Batch :=
  let file_id := p_resolve file_path in
  if bool_decide (file_id ∈ processed_files b) then mret b
  else
    let processed := {[ file_id ]} ∪ processed_files b in
    '(success, message) ← add_knowledge file_path;
    if success : bool then
      mret (mkBatch (S (success_count b)) (fail_count b) (errors b) processed)
    else if negb (PyStr.contains "No content extracted" message)
            && negb (PyStr.contains "Binary file skipped" message) then
      mret (mkBatch (success_count b) (S (fail_count b))
              (errors b ++ [(p_name file_path ++ ": " ++ message)%string])%list
              processed)
    else
      mret (mkBatch (success_count b) (S (fail_count b)) (errors b) processed).

Fixpoint ingest_loop (all_files : list File) (b : Batch) : M VS Batch :=
  match all_files with
  | [] => mret b
  | file_path :: rest => b' ← ingest_one b file_path; ingest_loop rest b'
  end.

Definition ingest_directory (dir_path : Dir) (recursive : bool)
  : M VS (nat * nat * list string) :=
  if negb (d_exists dir_path) || negb (d_is_dir dir_path) then
    mret (0, 1, ["Directory not found: " ++ d_str dir_path])
  else
    let all_files := candidates dir_path recursive in
    if length all_files =? 0 then
      mret (0, 0, ["No supported files found in directory"])
    else
      b ← ingest_loop all_files (mkBatch 0 0 [] ∅);
      mret (success_count b, fail_count b, errors b).

(** [st_size / (1024 * 1024)] *)
Definition size_mb (size : nat) : Q :=
  (inject_Z (Z.of_nat size) / inject_Z (1024 * 1024))%Q.

(** The loop of [scan_directory]: one path of the glob. *)
Definition scan_one (stats : ScanStats) (file_path : File) : result ScanStats :=
  if negb (p_is_file file_path) then Ok stats
  else
    let file_ext := PyStr.lower (p_suffix file_path) in
    if negb (in_supported file_ext) || String.eqb file_ext ".sb3" then Ok stats
    else
      file_type ← supported_label file_ext;
      size ← p_stat_size file_path;
      let by_type :=
        match files_by_type stats !! file_type with
        | Some _ => files_by_type stats
        | None => <[file_type := (0, 0%Q)]> (files_by_type stats)
        end in
      let '(count, mb) := default (0, 0%Q) (by_type !! file_type) in
      Ok (mkScanStats (directory stats)
            (<[file_type := (S count, (mb + size_mb size)%Q)]> by_type)
            (S (total_files stats))
            (total_size_mb stats + size_mb size)%Q).

Fixpoint scan_loop (paths : list File) (stats : ScanStats) : result ScanStats :=
  match paths with
  | [] => Ok stats
  | file_path :: rest => stats' ← scan_one stats file_path; scan_loop rest stats'
  end.

Definition scan_directory (dir_path : Dir) (recursive : bool) : result ScanResult :=
  if negb (d_exists dir_path) then
    Ok (ScanError ("Directory not found: " ++ d_str dir_path))
  else
    let file_pattern := if recursive then "**/*" else "*" in
    stats ← scan_loop (d_glob dir_path file_pattern)
              (mkScanStats (d_str dir_path) ∅ 0 0%Q);
    Ok (ScanOk stats).

(** One pair of the index's answer turned into a result dict. The
    subtraction [1 - score] is a float operation: [PyFormat.percent2]
    rounds its argument to the nearest float before it formats it. *)
Definition hit_of (ds : Document * Q) : SearchResult :=
  let '(doc, score) := ds in
  Hit (page_content doc)
      (default (MStr "Unknown") (metadata doc !! "source_file"))
      (default (MStr "Unknown") (metadata doc !! "file_type"))
      (default (MStr "N/A") (metadata doc !! "source_path"))
      (PyFormat.percent2 (1 - score)%Q)
      (default (MStr "N/A") (metadata doc !! "chunk_size")).

Definition search_knowledge (t : Tools VS) (query : string) (k : Z)
  : list SearchResult :=
  match vectorstore t with
  | None => [Notice "Knowledge base not available" "N/A"]
  | Some vs =>
      match similarity_search_with_score query k vs with
      | Ok docs => hit_of <$> docs
      | Raise e => [Notice ("Knowledge search error: " ++ e) "N/A"]
      end
  end.

(** [get_ingested_files]: [list(self.ingested_files.values())]. The dict
    lists its values in the order of insertion, the map in the order of
    its keys: the list is given up to its order, and what is proved of it
    reads its length and its members only. *)
Definition get_ingested_files (t : Tools VS) : list IngestRecord :=
  snd <$> map_to_list (ingested_files t).

(** [get_file_info] *)
Definition get_file_info (t : Tools VS) (filename : string) : option IngestRecord :=
  ingested_files t !! filename.

End Methods.

(** ** The walk of [ingest_directory] when a path query raises

    [ingest_directory] questions the file system outside any [try]:
    [exists] and [is_dir] on the directory, the iteration of [glob],
    [is_file] on every entry, [resolve] on every candidate. [pathlib]
    re-raises the errors of the operating system that it does not take for
    an answer (a [PermissionError] on an entry of a directory that cannot
    be searched, for one). [Faults] says which of these queries raise, and
    with what text; a query that does not raise answers as the [File] or
    the [Dir] record says. *)
Module Walk.

Record Faults : Type := mkFaults {
  exists_fault : option string;            (* dir_path.exists() *)
  is_dir_fault : option string;            (* dir_path.is_dir() *)
  glob_fault : option string;              (* the iteration of glob, after
                                              the entries of d_glob *)
  is_file_fault : File -> option string;   (* file_path.is_file() *)
  resolve_fault : File -> option string    (* file_path.resolve() *)
}.

(** A file system whose queries all answer. *)
Definition no_faults : Faults :=
  mkFaults None None None (fun _ => None) (fun _ => None).

(** One query: the exception, or the answer. *)
Definition query {A} (fault : option string) (answer : A) : result A :=
  match fault with
  | Some e => Raise e
  | None => Ok answer
  end.

Section Walk.

Context {VS : Type} {index : CorpusIndex VS} {splitter : TextSplitter}.
Context (faults : Faults).

(** The first loop of [ingest_directory]: one path of the glob. *)
Definition collect (acc : nat * list File) (file_path : File)
  : result (nat * list File) :=
  let '(skipped_count, all_files) := acc in
  is_file ← query (is_file_fault faults file_path) (p_is_file file_path);
  if negb is_file then Ok acc
  else
    let file_ext := PyStr.lower (p_suffix file_path) in
    if in_skip file_ext then Ok (S skipped_count, all_files)
    else if negb (in_supported file_ext) then Ok (S skipped_count, all_files)
    else Ok (skipped_count, (all_files ++ [file_path])%list).

Fixpoint collect_loop (paths : list File) (acc : nat * list File)
  : result (nat * list File) :=
  match paths with
  | [] => Ok acc
  | file_path :: rest => acc' ← collect acc file_path; collect_loop rest acc'
  end.

(** The files the second loop runs over, when the first loop ends. *)
Definition candidates (dir_path : Dir) (recursive : bool) : result (list File) :=
  let file_pattern := if recursive then "**/*" else "*" in
  acc ← collect_loop (d_glob dir_path file_pattern) (0, []);
  query (glob_fault faults) tt;;
  Ok (snd acc).

(** The second loop of [ingest_directory]: one candidate. *)
Definition ingest_one (b : Batch) (file_path : File) : M VS Batch :=
  file_id ← lift (query (resolve_fault faults file_path) (p_resolve file_path));
  if bool_decide (file_id ∈ processed_files b) then mret b
  else
    let processed := {[ file_id ]} ∪ processed_files b in
    '(success, message) ← add_knowledge file_path;
    if success : bool then
      mret (mkBatch (S (success_count b)) (fail_count b) (errors b) processed)
    else if negb (PyStr.contains "No content extracted" message)
            && negb (PyStr.contains "Binary file skipped" message) then
      mret (mkBatch (success_count b) (S (fail_count b))
              (errors b ++ [(p_name file_path ++ ": " ++ message)%string])%list
              processed)
    else
      mret (mkBatch (success_count b) (S (fail_count b)) (errors b) processed).

Fixpoint ingest_loop (all_files : list File) (b : Batch) : M VS Batch :=
  match all_files with
  | [] => mret b
  | file_path :: rest => b' ← ingest_one b file_path; ingest_loop rest b'
  end.

Definition ingest_directory (dir_path : Dir) (recursive : bool)
  : M VS (nat * nat * list string) :=
  found ← lift (query (exists_fault faults) (d_exists dir_path));
  missing ← (if negb found then mret true
             else
               is_dir ← lift (query (is_dir_fault faults) (d_is_dir dir_path));
               mret (negb is_dir));
  if missing : bool then
    mret (0, 1, ["Directory not found: " ++ d_str dir_path])
  else
    all_files ← lift (candidates dir_path recursive);
    if length all_files =? 0 then
      mret (0, 0, ["No supported files found in directory"])
    else
      b ← ingest_loop all_files (mkBatch 0 0 [] ∅);
      mret (success_count b, fail_count b, errors b).

End Walk.

End Walk.

(** ** The start-up decision of [EmbeddedSystemsAgent] *)

Module Agent.

(** The branch [_auto_ingest_on_startup] leaves through, named after what
    it prints there. *)
Inductive Startup : Type :=
| ScanFailed (error : string)
| KnowledgeBaseEmpty
| AlreadyIngested (ingested_count : nat)
| Ingested (success_count fail_count : nat) (errors : list string)
| AutoIngestError (e : string).

(** [int(x)] on a number: truncation towards zero. *)
Definition py_int (x : Q) : Z := Z.quot (Qnum x) (Zpos (Qden x)).

(** [int(total_files * 0.05)], the constant taken as the rational 5/100. *)
Definition tolerance (total_files : nat) : Z :=
  py_int (inject_Z (Z.of_nat total_files) * (5 # 100))%Q.

(** [scan_results.get("error")] and [scan_results.get("total_files", 0)] *)
Definition get_error (scan_results : ScanResult) : option string :=
  match scan_results with
  | ScanError error => Some error
  | ScanOk _ => None
  end.

Definition get_total_files (scan_results : ScanResult) : nat :=
  match scan_results with
  | ScanError _ => 0
  | ScanOk stats => total_files stats
  end.

(** Python truthiness of [dict.get(key)] on a string value. *)
Definition truthy_str (o : option string) : bool :=
  match o with
  | Some (String _ _) => true
  | _ => false
  end.

Section Startup.

Context {VS : Type} {index : CorpusIndex VS} {splitter : TextSplitter}
        {asyncio : EventLoop}.

(** [loop = asyncio.new_event_loop(); asyncio.set_event_loop(loop);
    loop.run_until_complete(coroutine)]: the coroutine runs to its end,
    unless a loop is already running in this thread; then
    [run_until_complete] raises [RuntimeError] and the coroutine never
    starts. *)
Definition run_until_complete {A} (coroutine : M VS A) : M VS A :=
  if loop_running then
    lift (Raise "Cannot run the event loop while another loop is running")
  else coroutine.

(** [scan_knowledge_base] and [ingest_knowledge_base] on the knowledge-base
    directory: both pass [recursive=True]. *)
Definition scan_knowledge_base (kb : Dir) : result ScanResult :=
  scan_directory kb true.

Definition ingest_knowledge_base (kb : Dir) : M VS (nat * nat * list string) :=
  ingest_directory kb true.

Definition _auto_ingest_body (kb : Dir) : M VS Startup :=
  scan_results ← lift (scan_knowledge_base kb);
  if truthy_str (get_error scan_results) then
    mret (ScanFailed (default "" (get_error scan_results)))
  else
    let total_files := get_total_files scan_results in
    if total_files =? 0 then mret KnowledgeBaseEmpty
    else
      ingested_count ← (fun t => (Ok (length (get_ingested_files t)), t));
      let tolerance := tolerance total_files in
      if (Z.of_nat total_files - tolerance <=? Z.of_nat ingested_count)%Z then
        mret (AlreadyIngested ingested_count)
      else
        '(success, fail, errors) ← run_until_complete (ingest_knowledge_base kb);
        mret (Ingested success fail errors).

Definition _auto_ingest_on_startup (kb : Dir) : M VS Startup :=
  try_except (_auto_ingest_body kb) (fun e => mret (AutoIngestError e)).

End Startup.

(** Whether the start-up ran the batch ingestion. *)
Definition ran_ingestion (s : Startup) : bool :=
  match s with
  | Ingested _ _ _ => true
  | _ => false
  end.

End Agent.

(** ** Collaborators and files for the concrete runs *)

Module Demo.

(** A splitter that hands every document back as one chunk. *)
Definition whole_splitter : TextSplitter :=
  {| split_documents := fun docs => Ok docs |}.

(** A splitter that produces no chunk at all. *)
Definition empty_splitter : TextSplitter :=
  {| split_documents := fun _ => Ok [] |}.

(** An index that keeps what it is given and answers every query with the
    first [k] entries of a fixed ranking. *)
Record Store : Type := mkStore {
  stored : list Document;
  ranking : list (Document * Q)
}.

Definition store_index : CorpusIndex Store :=
  {| add_documents := fun texts vs =>
       (Ok tt, mkStore (stored vs ++ texts)%list (ranking vs));
     similarity_search_with_score := fun _ k vs =>
       Ok (take (Z.to_nat k) (ranking vs)) |}.

Definition text_file (name suffix content : string) (size : nat) : File :=
  mkFile ("kb/" ++ name) name suffix ("/srv/kb/" ++ name) true true
    (Ok size) (Ok content) (Raise "not a PDF").

Definition binary_file (name suffix : string) (size : nat) : File :=
  mkFile ("kb/" ++ name) name suffix ("/srv/kb/" ++ name) true true
    (Ok size) (Raise "'utf-8' codec can't decode") (Raise "not a PDF").

Definition pdf_file (name : string) (size : nat) (pages : result (list Document)) : File :=
  mkFile ("kb/" ++ name) name ".pdf" ("/srv/kb/" ++ name) true true
    (Ok size) (Raise "binary") pages.

Definition dir_of (paths : list File) : Dir :=
  mkDir "kb" true true (fun _ => paths).

Definition missing_dir : Dir :=
  mkDir "/does/not/exist" false false (fun _ => []).

Definition fresh : Tools Store := mkTools (Some (mkStore [] [])) ∅.

(** The agent built with no event loop running, and built inside one. *)
Definition no_loop : EventLoop := {| loop_running := false |}.
Definition inside_loop : EventLoop := {| loop_running := true |}.

Definition blink : File :=
  text_file "blink.ino" ".ino" "void setup() { pinMode(13, OUTPUT); }" 37.
Definition notes : File :=
  text_file "notes.md" ".md" "# Wiring notes for the sensor board" 35.
Definition tiny : File := text_file "tiny.txt" ".txt" "ab" 2.

(** A file whose [open] raises. *)
Definition locked : File :=
  mkFile "kb/locked.c" "locked.c" ".c" "/srv/kb/locked.c" true true
    (Ok 512) (Raise "[Errno 13] Permission denied: 'kb/locked.c'")
    (Raise "not a PDF").

(** The ranking the index of the search run answers with. *)
Definition demo_ranking : list (Document * Q) :=
  [ (mkDocument "pinMode(13, OUTPUT);" ∅, 1 # 10);
    (mkDocument "digitalWrite(13, HIGH);" ∅, 3 # 10);
    (mkDocument "delay(1000);" ∅, 3 # 2);
    (mkDocument "Serial.begin(9600);" ∅, 2 # 1) ].

(** Three Python files, two PNG images and a 50-byte PDF. *)
Definition mixed_dir : Dir :=
  dir_of
    [ text_file "a.py" ".py" "print('hello, world')" 21;
      text_file "b.py" ".py" "import machine, time" 20;
      text_file "c.py" ".py" "led = machine.Pin(2)" 20;
      binary_file "wiring.png" ".png" 2048;
      binary_file "board.png" ".png" 4096;
      pdf_file "stub.pdf" 50 (Raise "EOF marker not found") ].

(** A batch of three sources, the second of which cannot be opened. *)
Definition one_locked : Dir := dir_of [blink; locked; notes].

(** The knowledge base of the start-up run. *)
Definition kb : Dir := dir_of [blink; notes; tiny].

End Demo.

(** ** Vocabulary of the statements *)

(** The extensions the two tables share. *)
Definition SHARED_EXTENSIONS : list string :=
  [ ".sb3"; ".jpg"; ".png"; ".svg"; ".webm";
    ".gz"; ".tar"; ".jar"; ".fzz"; ".vlw"; ".ttf" ].

(** A refusal or a failure is told apart from a success by the flag. *)
Definition succeeded (r : result (bool * string)) : bool :=
  match r with
  | Ok (true, _) => true
  | _ => false
  end.

(** The test a path of the glob passes to become a candidate. *)
Definition candidate (file_path : File) : bool :=
  p_is_file file_path
  && negb (in_skip (PyStr.lower (p_suffix file_path)))
  && in_supported (PyStr.lower (p_suffix file_path)).

(** The error entry [ingest_directory] keeps for a failure message. *)
Definition kept_error (name message : string) : list string :=
  if negb (PyStr.contains "No content extracted" message)
     && negb (PyStr.contains "Binary file skipped" message)
  then [name ++ ": " ++ message] else [].


(** The [relevance_score] of a hit. *)
Definition relevance_of (r : SearchResult) : option string :=
  match r with
  | Hit _ _ _ _ relevance_score _ => Some relevance_score
  | Notice _ _ => None
  end.

(** [scan_results["total_files"]] *)
Definition scanned_total (r : result ScanResult) : option nat :=
  match r with
  | Ok (ScanOk stats) => Some (total_files stats)
  | _ => None
  end.

(** [scan_results["files_by_type"][file_type]["count"]] *)
Definition scanned_count (r : result ScanResult) (file_type : string) : option nat :=
  match r with
  | Ok (ScanOk stats) => fst <$> (files_by_type stats !! file_type)
  | _ => None
  end.

(** What the scan of [Demo.kb] reports. *)
Definition kb_stats : ScanStats :=
  match scan_directory Demo.kb true with
  | Ok (ScanOk stats) => stats
  | _ => mkScanStats "" ∅ 0 0%Q
  end.

(** The record [add_knowledge] writes for a file split into [texts]. *)
Definition record_of (file_path : File) (label : string)
    (texts : list Document) (size : nat) : IngestRecord :=
  mkIngestRecord (p_str file_path) label (length texts) size.

Section Outcomes.

Context {VS : Type} {index : CorpusIndex VS} {splitter : TextSplitter}.

(** The three ways [add_knowledge] can end: a refusal that leaves the
    instance as it was; a failure at or after the write to the index, which
    leaves only the index changed; a success, which changes the index and
    then upserts the ledger. *)
Inductive add_knowledge_outcome (file_path : File) (t : Tools VS)
  : result (bool * string) * Tools VS -> Prop :=
| refused (msg : string) :
    add_knowledge_outcome file_path t (Ok (false, msg), t)
| failed_at_write (msg : string) (texts : list Document) (vs : VS) :
    vectorstore t = Some vs ->
    add_knowledge_outcome file_path t
      (Ok (false, msg),
       mkTools (Some (add_documents texts vs).2) (ingested_files t))
| ingested (docs chunks : list Document) (label : string) (size : nat) (vs : VS) :
    p_exists file_path = true ->
    gate (PyStr.lower (p_suffix file_path)) = GatePass ->
    _load_file file_path = Some docs ->
    split_documents docs = Ok chunks ->
    chunks <> [] ->
    supported_label (PyStr.lower (p_suffix file_path)) = Ok label ->
    vectorstore t = Some vs ->
    (add_documents (stamp file_path label <$> chunks) vs).1 = Ok tt ->
    p_stat_size file_path = Ok size ->
    add_knowledge_outcome file_path t
      (Ok (true,
           "✅ Added " ++ PyStr.of_nat (length (stamp file_path label <$> chunks))
           ++ " chunks from " ++ p_name file_path ++ " (" ++ label ++ ")"),
       mkTools (Some (add_documents (stamp file_path label <$> chunks) vs).2)
         (<[p_name file_path :=
              record_of file_path label (stamp file_path label <$> chunks) size]>
            (ingested_files t))).

(** A file the single-file path takes to the end: it exists, its content
    loads, the splitter returns at least one chunk, [stat] answers. *)
Definition ingestible (file_path : File) : bool :=
  p_exists file_path
  && match _load_file file_path with
     | Some docs =>
         match split_documents docs with
         | Ok (_ :: _) => true
         | _ => false
         end
     | None => false
     end
  && is_ok (p_stat_size file_path).

End Outcomes.

(** *** What a batch leaves behind *)

Section Effects.

Context {VS : Type} {index : CorpusIndex VS} {splitter : TextSplitter}.

(** [self.SUPPORTED_EXTENSIONS[file_ext]] for the extension of a file. *)
Definition label_of (file_path : File) : string :=
  default "" (dict_get SUPPORTED_EXTENSIONS (PyStr.lower (p_suffix file_path))).

(** The chunks [add_knowledge] hands to the index for a file. *)
Definition chunks_of (file_path : File) : list Document :=
  match _load_file file_path with
  | Some docs =>
      match split_documents docs with
      | Ok chunks => stamp file_path (label_of file_path) <$> chunks
      | Raise _ => []
      end
  | None => []
  end.

(** The ledger entry [add_knowledge] writes for a file. *)
Definition written (file_path : File) : IngestRecord :=
  record_of file_path (label_of file_path) (chunks_of file_path)
    (match p_stat_size file_path with Ok size => size | Raise _ => 0 end).

(** The instance after a successful [add_knowledge] of a file. *)
Definition recorded (t : Tools VS) (file_path : File) : Tools VS :=
  match vectorstore t with
  | Some vs =>
      mkTools (Some (add_documents (chunks_of file_path) vs).2)
        (<[p_name file_path := written file_path]> (ingested_files t))
  | None => t
  end.

(** The instance after the successful ingestion of [files], in order. *)
Definition ingest_all (files : list File) (t : Tools VS) : Tools VS :=
  foldl recorded t files.

End Effects.

(** What the error list keeps of a candidate without loadable content:
    nothing when the file is there, the "File not found" entry otherwise. *)
Definition refusal_error (bad : File) : list string :=
  if p_exists bad then []
  else kept_error (p_name bad) ("File not found: " ++ p_str bad).

(** Every path query of the walk of a directory answers. *)
Definition walk_answers (faults : Walk.Faults) (dir_path : Dir) (recursive : bool)
  : Prop :=
  Walk.exists_fault faults = None /\
  Walk.is_dir_fault faults = None /\
  Walk.glob_fault faults = None /\
  Forall (fun f => Walk.is_file_fault faults f = None
                   /\ Walk.resolve_fault faults f = None)
    (d_glob dir_path (if recursive then "**/*" else "*")).

(** [e] is the exception of one of the path queries of the walk. *)
Definition walk_fault (faults : Walk.Faults) (dir_path : Dir) (recursive : bool)
    (e : string) : Prop :=
  Walk.exists_fault faults = Some e \/
  Walk.is_dir_fault faults = Some e \/
  Walk.glob_fault faults = Some e \/
  exists f, f ∈ d_glob dir_path (if recursive then "**/*" else "*")
            /\ (Walk.is_file_fault faults f = Some e
                \/ Walk.resolve_fault faults f = Some e).

(** The test of the loop of [scan_directory]: the paths it counts. *)
Definition counted (file_path : File) : bool :=
  p_is_file file_path
  && negb (negb (in_supported (PyStr.lower (p_suffix file_path)))
           || String.eqb (PyStr.lower (p_suffix file_path)) ".sb3").

(** The sum of the [count] fields of [files_by_type]. *)
Definition count_sum (by_type : gmap string (nat * Q)) : nat :=
  map_fold (fun _ entry acc => entry.1 + acc) 0 by_type.

(** The dict [EmbeddedSystemsAgent.ingest_knowledge_base] returns. *)
Record IngestReport : Type := mkIngestReport {
  report_success : bool;
  report_success_count : nat;
  report_fail_count : nat;
  report_errors : list string;
  report_message : string
}.

Section Report.

Context {VS : Type} {index : CorpusIndex VS} {splitter : TextSplitter}.

(** [EmbeddedSystemsAgent.ingest_knowledge_base], with the dict it builds
    from the triple of [ingest_directory]. *)
Definition ingest_knowledge_base_report (kb : Dir) : M VS IngestReport :=
  '(success, fail, errors) ← ingest_directory kb true;
  mret (mkIngestReport (fail =? 0) success fail errors
          ("✅ Ingested " ++ PyStr.of_nat success ++ " files"
           ++ (if 0 <? fail then " (" ++ PyStr.of_nat fail ++ " failed)"
               else ""))).

End Report.

(** ** [src/utils/helpers.py] *)

Module Helpers.

(** The one-character string "\n". *)
Definition nl : string := String "010"%char "".

(** [s[n:]] *)
Fixpoint drop (n : nat) (s : string) : string :=
  match n, s with
  | 0, _ => s
  | S n', String _ s' => drop n' s'
  | S _, EmptyString => EmptyString
  end.

(** [s.partition(sep)] when [sep] occurs: the text before its first
    occurrence and the text after it. *)
Fixpoint partition (sep s : string) : option (string * string) :=
  if PyStr.startswith sep s then Some ("", drop (String.length sep) s)
  else
    match s with
    | EmptyString => None
    | String c s' =>
        match partition sep s' with
        | Some (before, after) => Some (String c before, after)
        | None => None
        end
    end.

(** [s.split('\n')] *)
Fixpoint split_lines (s : string) : list string :=
  match s with
  | EmptyString => [""]
  | String c s' =>
      if Ascii.eqb c "010"%char then "" :: split_lines s'
      else
        match split_lines s' with
        | line :: rest => String c line :: rest
        | [] => [String c ""]
        end
  end.

(** ['\n'.join(lines)] *)
Fixpoint join_lines (lines : list string) : string :=
  match lines with
  | [] => ""
  | [line] => line
  | line :: rest => line ++ nl ++ join_lines rest
  end.

(** [validate_platform] *)
Definition valid_platforms : list string := [ "arduino"; "esp32"; "raspberry_pi" ].

Definition validate_platform (platform : string) : bool :=
  bool_decide (PyStr.lower platform ∈ valid_platforms).

(** The fence patterns of [extract_code_from_response], each as the list of
    its language alternatives: the pattern is three backquotes, one
    alternative, a newline, a lazy group over any characters, three
    backquotes. The last pattern has no language. *)
Definition code_patterns : list (list string) :=
  [ [ "cpp"; "c++"; "arduino"; "ino" ]; [ "python" ]; [ "" ] ].

(** A pattern tried at the start of [s]: the alternatives in order, then
    the shortest group that is followed by three backquotes. *)
Fixpoint match_at (langs : list string) (s : string) : option string :=
  match langs with
  | [] => None
  | lang :: rest =>
      let opener := "```" ++ lang ++ nl in
      let group :=
        if PyStr.startswith opener s
        then fst <$> partition "```" (drop (String.length opener) s)
        else None in
      match group with
      | Some code => Some code
      | None => match_at rest s
      end
  end.

(** [re.findall(pattern, s, re.DOTALL)[0]] when there is a match: the
    group of the leftmost match. *)
Fixpoint first_match (langs : list string) (s : string) : option string :=
  match match_at langs s with
  | Some code => Some code
  | None =>
      match s with
      | EmptyString => None
      | String _ s' => first_match langs s'
      end
  end.

(** The loop over [code_patterns]. *)
Fixpoint first_fenced (patterns : list (list string)) (response : string)
  : option string :=
  match patterns with
  | [] => None
  | langs :: rest =>
      match first_match langs response with
      | Some code => Some (PyStr.strip code)
      | None => first_fenced rest response
      end
  end.

Definition code_keywords : list string :=
  [ "#include"; "void setup"; "void loop"; "import "; "def "; "if __name__" ].

Definition section_headers : list string :=
  [ "explanation:"; "components:"; "setup:" ].

(** [any(keyword in line for keyword in [...])] *)
Definition has_keyword (line : string) : bool :=
  existsb (fun keyword => PyStr.contains keyword line) code_keywords.

(** [line.lower().startswith(('explanation:', 'components:', 'setup:'))] *)
Definition is_section_header (line : string) : bool :=
  existsb (fun header => PyStr.startswith header (PyStr.lower line))
    section_headers.

(** The line loop of the fall-back, with its [break]. *)
Fixpoint scan_lines (lines : list string) (in_code : bool)
    (code_lines : list string) : list string :=
  match lines with
  | [] => code_lines
  | line :: rest =>
      let in_code := has_keyword line || in_code in
      let code_lines :=
        if in_code then (code_lines ++ [line])%list else code_lines in
      if is_section_header line then code_lines
      else scan_lines rest in_code code_lines
  end.

Definition extract_code_from_response (response : string) : string :=
  match first_fenced code_patterns response with
  | Some code => code
  | None =>
      PyStr.strip (join_lines (scan_lines (split_lines response) false []))
  end.

(** A text without a backquote, and a text without a newline. *)
Fixpoint no_backquote (s : string) : bool :=
  match s with
  | EmptyString => true
  | String c s' => negb (Ascii.eqb c "`"%char) && no_backquote s'
  end.

Fixpoint single_line (s : string) : bool :=
  match s with
  | EmptyString => true
  | String c s' => negb (Ascii.eqb c "010"%char) && single_line s'
  end.

End Helpers.

(** ** [code_validator_tool] of [src/tools/embedded_tools.py] *)

Module Validator.

(** What [compile(code, '<string>', 'exec')] does: it returns, raises
    [SyntaxError], or raises something else. *)
Inductive CompileOutcome : Type :=
| Compiles
| SyntaxError (msg : string)
| OtherError (msg : string).

(** The dict of a validation that ran to its end. *)
Record Validation : Type := mkValidation {
  v_success : bool;
  v_warnings : list string;
  v_errors : list string;
  v_suggestions : list string
}.

(** The return value: that dict, or the two-key dict of the [except]. *)
Inductive ValidatorResult : Type :=
| Validated (v : Validation)
| ValidationFailed (error : string).

(** [if test: some_list.append(msg)] as the list it adds. *)
Definition when (test : bool) (msg : string) : list string :=
  if test then [msg] else [].

(** The loop over [enumerate(lines, 1)]. *)
Fixpoint long_lines (i : nat) (lines : list string) : list string :=
  match lines with
  | [] => []
  | line :: rest =>
      (when (120 <? String.length (PyStr.strip line))
         ("Line " ++ PyStr.of_nat i ++ " is very long (>120 chars)")
       ++ long_lines (S i) rest)%list
  end.

Section Compiler.

Variable compile : string -> CompileOutcome.

Definition code_validator_tool (code platform : string) : ValidatorResult :=
  let general := long_lines 1 (Helpers.split_lines code) in
  if bool_decide (PyStr.lower platform ∈ [ "arduino"; "esp32" ]) then
    let errors :=
      (when (negb (PyStr.contains "setup()" code))
         "Missing required setup() function"
       ++ when (negb (PyStr.contains "loop()" code)
                && negb (String.eqb (PyStr.lower platform) "library"))
            "Missing required loop() function"
       ++ when (PyStr.contains "WiFi." code
                && negb (PyStr.contains "#include <WiFi.h>" code))
            "Using WiFi functions without including WiFi.h")%list in
    let warnings :=
      (when (PyStr.contains "Serial.begin" code
             && negb (PyStr.contains "Serial.h" code)
             && negb (PyStr.contains "#include <Arduino.h>" code))
         "Using Serial without including Arduino.h"
       ++ general)%list in
    Validated (mkValidation (negb (truthy errors)) warnings errors [])
  else if String.eqb (PyStr.lower platform) "raspberry_pi" then
    match compile code with
    | OtherError e => ValidationFailed ("Validation failed: " ++ e)
    | outcome =>
        let errors :=
          match outcome with
          | SyntaxError e => ["Python syntax error: " ++ e]
          | _ => []
          end in
        let warnings :=
          (when (PyStr.contains "GPIO." code
                 && negb (PyStr.contains "import RPi.GPIO" code))
             "Using GPIO without importing RPi.GPIO"
           ++ general)%list in
        let suggestions :=
          when (negb (PyStr.contains "GPIO.cleanup()" code)
                && PyStr.contains "GPIO." code)
            "Consider adding GPIO.cleanup() for proper resource cleanup" in
        Validated (mkValidation (negb (truthy errors)) warnings errors suggestions)
    end
  else Validated (mkValidation true general [] []).

End Compiler.

End Validator.

(** ** More sample data for the concrete runs *)

Module Samples.

(** A splitter that always raises. *)
Definition raising_splitter : TextSplitter :=
  {| split_documents := fun _ => Raise "chunk overlap larger than chunk size" |}.

(** An instance whose vector store failed to initialise. *)
Definition no_store : Tools Demo.Store := mkTools None ∅.

(** A source file that disappears between the glob and [stat]. *)
Definition vanished : File :=
  mkFile "kb/gone.py" "gone.py" ".py" "/srv/kb/gone.py" true true
    (Raise "[Errno 2] No such file or directory: 'kb/gone.py'")
    (Raise "[Errno 2] No such file or directory: 'kb/gone.py'")
    (Raise "not a PDF").

(** The sketch of [Demo.blink] reached through a link. *)
Definition blink_link : File :=
  mkFile "kb/latest/blink.ino" "blink.ino" ".ino" "/srv/kb/blink.ino" true true
    (Ok 37) (Ok "void setup() { pinMode(13, OUTPUT); }") (Raise "not a PDF").

(** A Git pack file: in the skip set, not in the supported table. *)
Definition pack : File := Demo.binary_file "objects.pack" ".pack" 4096.

(** A directory of images, an archive and a sub-directory. *)
Definition images_dir : Dir :=
  Demo.dir_of
    [ Demo.binary_file "wiring.png" ".png" 2048;
      Demo.binary_file "photos.tar" ".tar" 4096;
      Demo.binary_file "README" "" 120;
      mkFile "kb/sub" "sub" "" "/srv/kb/sub" true false
        (Ok 4096) (Raise "[Errno 21] Is a directory") (Raise "not a PDF") ].

Definition two_sources : Dir := Demo.dir_of [Demo.blink; Demo.notes].
Definition two_sources_and_link : Dir :=
  Demo.dir_of [Demo.blink; Demo.notes; blink_link].

Definition with_vanished : Dir := Demo.dir_of [Demo.blink; vanished].

(** The statistics of the scan of [Demo.mixed_dir]. *)
Definition mixed_stats : ScanStats :=
  match scan_directory Demo.mixed_dir true with
  | Ok (ScanOk stats) => stats
  | _ => mkScanStats "" ∅ 0 0%Q
  end.

(** A compiler that accepts everything. *)
Definition lenient : string -> Validator.CompileOutcome :=
  fun _ => Validator.Compiles.

Definition sketch : string :=
  "void setup() { }" ++ Helpers.nl ++ "void loop() { }" ++ Helpers.nl.

(** A knowledge base with a sub-directory that can be listed but not
    searched: [is_file] on its entry raises. *)
Definition private_notes : File :=
  mkFile "kb/private/notes.txt" "notes.txt" ".txt" "/srv/kb/private/notes.txt"
    true true (Ok 64) (Raise "[Errno 13] Permission denied") (Raise "not a PDF").

Definition with_private : Dir := Demo.dir_of [Demo.blink; private_notes].

Definition private_denied : Walk.Faults :=
  Walk.mkFaults None None None
    (fun f => if String.eqb (p_str f) "kb/private/notes.txt"
              then Some "[Errno 13] Permission denied: 'kb/private/notes.txt'"
              else None)
    (fun _ => None).

End Samples.

(** * Properties *)

(** Replace a closed boolean test by its value. *)
Ltac eval_test b :=
  let v := eval vm_compute in b in change b with v.

(** Settle a closed decidable statement by running its decision. *)
Ltac by_evaluation := apply (bool_decide_unpack _); vm_compute; exact I.

(** Split a membership in a literal list into its cases. *)
Ltac cases_of_elem H :=
  repeat (apply elem_of_cons in H; destruct H as [H | H]; [subst |]);
  try (apply elem_of_nil in H; destruct H).

(** ** The extension tables *)

Lemma in_supported_elem (ext : string) :
  in_supported ext = true <-> ext ∈ SUPPORTED_EXTENSIONS.*1.
Proof.
  unfold in_supported. split.
  - generalize SUPPORTED_EXTENSIONS as d. induction d as [| [k v] d IH]; simpl.
    + discriminate.
    + destruct (String.eqb_spec k ext) as [-> | Hne].
      * intros _. apply elem_of_cons. by left.
      * intros Hd. apply elem_of_cons. right. by apply IH.
  - generalize SUPPORTED_EXTENSIONS as d. induction d as [| [k v] d IH]; simpl.
    + intros Hin. by apply elem_of_nil in Hin.
    + intros Hin. destruct (String.eqb_spec k ext) as [-> | Hne]; [done |].
      apply elem_of_cons in Hin as [-> | Hin]; [done | by apply IH].
Qed.

Lemma in_skip_elem (ext : string) :
  in_skip ext = true <-> ext ∈ SKIP_EXTENSIONS.
Proof. unfold in_skip. apply bool_decide_eq_true. Qed.

(** Past the two table tests, one of the three loaders always applies:
    the last [else: return None] of [_load_file] is never reached. *)
Lemma loader_exists (ext : string) :
  in_skip ext = false -> in_supported ext = true ->
  ext = ".pdf" \/ ext ∈ (TEXT_DOC_EXTENSIONS ++ CODE_EXTENSIONS)%list.
Proof.
  intros Hskip Hsup. apply in_supported_elem in Hsup.
  cbn in Hsup. cases_of_elem Hsup;
    first [ by left
          | right; by_evaluation
          | vm_compute in Hskip; discriminate ].
Qed.

(** C2, as the spec words it, fails: [.png] is a key of the supported table
    and a member of the skip set. *)
Lemma tables_not_disjoint :
  ~ (forall ext : string,
       ext ∈ SKIP_EXTENSIONS -> ext ∉ SUPPORTED_EXTENSIONS.*1).
Proof.
  intros Hdisj. apply (Hdisj ".png").
  - by_evaluation.
  - by_evaluation.
Qed.

(** C2 (amended): the skip set and the supported table share exactly the
    eleven binary extensions of [SHARED_EXTENSIONS] (the skip set adds
    [.idx], [.pack], [.rev]); and for every extension of either table the
    classification of [_load_file], which looks at the skip set first, is
    never [Unsupported]. *)
Theorem classify_tables (ext : string) :
  ext ∈ SUPPORTED_EXTENSIONS.*1 \/ ext ∈ SKIP_EXTENSIONS ->
  classify ext <> Unsupported /\
  (ext ∈ SKIP_EXTENSIONS /\ ext ∈ SUPPORTED_EXTENSIONS.*1
   <-> ext ∈ SHARED_EXTENSIONS).
Proof.
  intros Hin. split.
  - destruct Hin as [Hin | Hin]; cbn in Hin; cases_of_elem Hin;
      vm_compute; discriminate.
  - split.
    + intros [Hskip Hsup]. cbn in Hskip. cases_of_elem Hskip;
        first [ by_evaluation
              | exfalso; apply in_supported_elem in Hsup;
                vm_compute in Hsup; discriminate ].
    + intros Hsh. cbn in Hsh. cases_of_elem Hsh;
        (split; by_evaluation).
Qed.

Lemma classify_tables_witness :
  classify ".idx" <> Unsupported /\
  (".idx" ∈ SKIP_EXTENSIONS /\ ".idx" ∈ SUPPORTED_EXTENSIONS.*1
   <-> ".idx" ∈ SHARED_EXTENSIONS).
Proof.
  apply (classify_tables ".idx"). right.
  by_evaluation.
Defined.

(** The gate of [add_knowledge] tests the supported table first, so there
    the three skip-only extensions are reported as unsupported. *)
Lemma gate_skip_only :
  gate ".idx" = GateUnsupported /\ gate ".pack" = GateUnsupported
  /\ gate ".rev" = GateUnsupported /\ gate ".png" = GateBinary.
Proof. by vm_compute. Qed.

(** ** Extraction: [_load_file] *)

Lemma docs_or_none_nonempty (docs docs' : list Document) :
  docs_or_none docs = Some docs' -> docs' = docs /\ docs <> [].
Proof. destruct docs; simpl; [discriminate |]. intros [= <-]. done. Qed.

(** What [_load_file] hands back is never an empty list. *)
Lemma _load_file_nonempty (file_path : File) (docs : list Document) :
  _load_file file_path = Some docs -> docs <> [].
Proof.
  unfold _load_file, _load_file_body.
  destruct (in_skip _); [discriminate |].
  destruct (negb (in_supported _)); [discriminate |].
  match goal with |- context [mbind _ ?br] => destruct br as [[ds |] | e] end;
    simpl; try discriminate.
  intros Hd. by apply docs_or_none_nonempty in Hd as [-> ?].
Qed.

(** [classify] names the branch [_load_file] takes. *)
Lemma _load_file_by_kind (file_path : File) :
  _load_file file_path =
    match classify (PyStr.lower (p_suffix file_path)) with
    | BinarySkip | Unsupported => None
    | PDF =>
        match load_pdf file_path with
        | Ok (Some docs) => docs_or_none docs
        | _ => None
        end
    | TextDoc | CodeOrConfig =>
        match load_text file_path with
        | Ok (Some docs) => docs_or_none docs
        | _ => None
        end
    end.
Proof.
  unfold _load_file, _load_file_body, classify.
  destruct (in_skip _); [done |].
  destruct (in_supported _); simpl; [| done].
  destruct (_ =? ".pdf")%string.
  { by destruct (load_pdf file_path) as [[docs |] | e]. }
  destruct (bool_decide (_ ∈ TEXT_DOC_EXTENSIONS)).
  { by destruct (load_text file_path) as [[docs |] | e]. }
  destruct (bool_decide (_ ∈ CODE_EXTENSIONS)); [| done].
  by destruct (load_text file_path) as [[docs |] | e].
Qed.

(** A path becomes a candidate of the batch when it is a file of a kind
    other than [BinarySkip] and [Unsupported]. *)
Lemma candidate_by_kind (file_path : File) :
  candidate file_path = true <->
  p_is_file file_path = true
  /\ classify (PyStr.lower (p_suffix file_path)) <> BinarySkip
  /\ classify (PyStr.lower (p_suffix file_path)) <> Unsupported.
Proof.
  unfold candidate, classify.
  destruct (p_is_file file_path); simpl; [| naive_solver].
  destruct (in_skip _) eqn:Hskip; simpl; [naive_solver |].
  destruct (in_supported _) eqn:Hsup; simpl; [| naive_solver].
  destruct (loader_exists _ Hskip Hsup) as [-> | Hin].
  - by vm_compute.
  - destruct (_ =? ".pdf")%string; [done |].
    destruct (bool_decide (_ ∈ TEXT_DOC_EXTENSIONS)) eqn:Htext; [done |].
    destruct (bool_decide (_ ∈ CODE_EXTENSIONS)) eqn:Hcode; [done |].
    apply bool_decide_eq_false in Htext, Hcode.
    apply elem_of_app in Hin as [? | ?]; done.
Qed.

Lemma _load_file_pdf (file_path : File) :
  PyStr.lower (p_suffix file_path) = ".pdf" ->
  _load_file file_path =
    match load_pdf file_path with
    | Ok (Some docs) => docs_or_none docs
    | _ => None
    end.
Proof.
  intros Hext. unfold _load_file, _load_file_body. rewrite Hext.
  eval_test (in_skip ".pdf"). eval_test (in_supported ".pdf").
  eval_test (".pdf" =? ".pdf")%string. cbn [negb].
  by destruct (load_pdf file_path) as [[docs |] | e].
Qed.

Lemma _load_file_text (file_path : File) :
  PyStr.lower (p_suffix file_path) ∈ (TEXT_DOC_EXTENSIONS ++ CODE_EXTENSIONS)%list ->
  _load_file file_path =
    match load_text file_path with
    | Ok (Some docs) => docs_or_none docs
    | _ => None
    end.
Proof.
  intros Hext. unfold _load_file, _load_file_body.
  destruct (PyStr.lower (p_suffix file_path)) eqn:E; rewrite <- E in *;
    cbn in Hext; cases_of_elem Hext;
    match goal with
    | H : _ = ?e |- _ =>
        rewrite H;
        eval_test (in_skip e); eval_test (in_supported e);
        eval_test (e =? ".pdf")%string;
        eval_test (bool_decide (e ∈ TEXT_DOC_EXTENSIONS));
        try eval_test (bool_decide (e ∈ CODE_EXTENSIONS))
    end; cbn [negb];
    by destruct (load_text file_path) as [[docs |] | e].
Qed.

Lemma forallb_short (n : nat) (docs : list Document) :
  forallb (fun doc => short_text n (page_content doc)) docs = true <->
  Forall (fun doc => String.length (PyStr.strip (page_content doc)) < n) docs.
Proof.
  rewrite forallb_forall, Forall_forall. unfold short_text.
  split; intros Hall doc Hin.
  - apply Nat.ltb_lt, Hall. by apply list_elem_of_In.
  - apply Nat.ltb_lt, Hall. by apply list_elem_of_In.
Qed.

(** C6: [_load_file] gives [None] (a value: nothing is raised) for a PDF
    under 100 bytes, for a PDF all of whose pages strip to under 50
    characters, and for a text, markup, code or config file whose content
    strips to under 10 characters; and these are the exact thresholds: a
    readable PDF of at least 100 bytes with one page of 50 characters or
    more, and a readable text of 10 characters or more, are handed back. *)
Theorem _load_file_noise (file_path : File) :
  let file_ext := PyStr.lower (p_suffix file_path) in
  (file_ext = ".pdf" ->
     (forall size, p_stat_size file_path = Ok size -> size < 100 ->
        _load_file file_path = None) /\
     (forall docs, p_pdf_load file_path = Ok docs ->
        Forall (fun doc => String.length (PyStr.strip (page_content doc)) < 50) docs ->
        _load_file file_path = None) /\
     (forall size docs,
        p_stat_size file_path = Ok size -> p_pdf_load file_path = Ok docs ->
        100 <= size ->
        ~ Forall (fun doc => String.length (PyStr.strip (page_content doc)) < 50) docs ->
        _load_file file_path = Some docs)) /\
  (file_ext ∈ (TEXT_DOC_EXTENSIONS ++ CODE_EXTENSIONS)%list ->
     forall content, p_read file_path = Ok content ->
       (String.length (PyStr.strip content) < 10 ->
          _load_file file_path = None) /\
       (10 <= String.length (PyStr.strip content) ->
          _load_file file_path =
            Some [mkDocument content {[ "source" := MStr (p_str file_path) ]}])).
Proof.
  intros file_ext. subst file_ext. split.
  - intros Hext. rewrite (_load_file_pdf _ Hext). unfold load_pdf.
    split; [| split].
    + intros size Hsize Hlt. rewrite Hsize. simpl.
      by apply Nat.ltb_lt in Hlt as ->.
    + intros docs Hload Hshort. apply forallb_short in Hshort.
      destruct (p_stat_size file_path) as [size |]; simpl; [| done].
      destruct (size <? 100); [done |].
      rewrite Hload. simpl. rewrite Hshort. by rewrite orb_true_r.
    + intros size docs Hsize Hload Hge Hlong.
      rewrite Hsize. simpl.
      apply Nat.ltb_ge in Hge as ->. rewrite Hload. simpl.
      destruct (forallb _ docs) eqn:Hall.
      { by apply forallb_short in Hall. }
      destruct docs as [| doc docs]; [by destruct Hlong |]. done.
  - intros Hext content Hread. rewrite (_load_file_text _ Hext).
    unfold load_text, short_text. rewrite Hread. simpl. split.
    + intros Hlt. by apply Nat.ltb_lt in Hlt as ->.
    + intros Hge. by apply Nat.ltb_ge in Hge as ->.
Qed.

Lemma _load_file_noise_witness :
  _load_file (Demo.pdf_file "stub.pdf" 50 (Ok [])) = None /\
  _load_file Demo.tiny = None.
Proof.
  split.
  - apply (proj1 (proj1 (_load_file_noise (Demo.pdf_file "stub.pdf" 50 (Ok [])))
                    ltac:(reflexivity)) 50); [reflexivity | simpl; lia].
  - apply (proj1 (proj2 (_load_file_noise Demo.tiny)
                    ltac:(by_evaluation) "ab" ltac:(reflexivity))).
    vm_compute. lia.
Defined.

(** A file that cannot be read at all is dropped the same way. *)
Lemma _load_file_unreadable (file_path : File) (e : string) :
  PyStr.lower (p_suffix file_path) ∈ (TEXT_DOC_EXTENSIONS ++ CODE_EXTENSIONS)%list ->
  p_read file_path = Raise e -> _load_file file_path = None.
Proof.
  intros Hext Hread. rewrite (_load_file_text _ Hext).
  unfold load_text. by rewrite Hread.
Qed.

Lemma _load_file_pdf_raises (file_path : File) (e : string) :
  PyStr.lower (p_suffix file_path) = ".pdf" ->
  p_pdf_load file_path = Raise e -> _load_file file_path = None.
Proof.
  intros Hext Hload. rewrite (_load_file_pdf _ Hext). unfold load_pdf.
  destruct (p_stat_size file_path) as [size |]; simpl; [| done].
  destruct (size <? 100); [done |]. by rewrite Hload.
Qed.

(** ** Single-file ingestion: [add_knowledge] *)

(** Unfold the monad of the instance down to pairs. *)
Ltac run_M :=
  unfold mbind, M_bind, mret, M_ret, lift, get_vectorstore,
    call_add_documents, set_ingested; simpl.

Section Ingestion.

Context {VS : Type} {index : CorpusIndex VS} {splitter : TextSplitter}.

Lemma add_knowledge_cases (file_path : File) (t : Tools VS) :
  add_knowledge_outcome file_path t (add_knowledge file_path t).
Proof.
  unfold add_knowledge, try_except, add_knowledge_body, gate.
  destruct (p_exists file_path) eqn:Hex; simpl; [| apply refused].
  destruct (in_supported _) eqn:Hsup; simpl; [| apply refused].
  destruct (in_skip _) eqn:Hskip; simpl; [apply refused |].
  destruct (_load_file file_path) as [[| doc docs] |] eqn:Hload;
    [apply refused | | apply refused].
  run_M.
  destruct (split_documents (doc :: docs)) as [chunks | e] eqn:Hsplit;
    [| apply refused].
  destruct chunks as [| c chunks]; simpl; [apply refused |].
  destruct (supported_label _) as [label | e] eqn:Hlabel; simpl;
    [| apply refused].
  destruct (vectorstore t) as [vs |] eqn:Hvs; simpl; [| apply refused].
  destruct (add_documents _ vs) as [[[] | e] vs'] eqn:Hadd; simpl.
  - destruct (p_stat_size file_path) as [size |] eqn:Hsize; simpl.
    + pose proof (ingested file_path t (doc :: docs) (c :: chunks) label size vs)
        as Hin.
      unfold gate in Hin. rewrite Hsup, Hskip in Hin. simpl in Hin.
      rewrite Hadd in Hin. simpl in Hin. by apply Hin.
    + pose proof (failed_at_write file_path t
                    ("Error: " ++ PyStr.take 100 msg)
                    (stamp file_path label <$> c :: chunks) vs Hvs) as Hf.
      simpl in Hf. by rewrite Hadd in Hf.
  - pose proof (failed_at_write file_path t
                  ("Error: " ++ PyStr.take 100 e)
                  (stamp file_path label <$> c :: chunks) vs Hvs) as Hf.
    simpl in Hf. by rewrite Hadd in Hf.
Qed.

(** [add_knowledge] catches whatever its body raises. *)
Lemma add_knowledge_returns (file_path : File) (t : Tools VS) :
  exists success message t',
    add_knowledge file_path t = (Ok (success, message), t').
Proof. destruct (add_knowledge_cases file_path t); eauto. Qed.

(** What a successful call went through. *)
Lemma add_knowledge_success_inv
    (file_path : File) (t t1 : Tools VS) (msg : string) :
  add_knowledge file_path t = (Ok (true, msg), t1) ->
  exists docs chunks label size vs,
    _load_file file_path = Some docs /\
    split_documents docs = Ok chunks /\
    supported_label (PyStr.lower (p_suffix file_path)) = Ok label /\
    p_stat_size file_path = Ok size /\
    vectorstore t = Some vs /\
    (add_documents (stamp file_path label <$> chunks) vs).1 = Ok tt /\
    t1 = mkTools (Some (add_documents (stamp file_path label <$> chunks) vs).2)
           (<[p_name file_path :=
                record_of file_path label (stamp file_path label <$> chunks) size]>
              (ingested_files t)).
Proof.
  intros Hrun. pose proof (add_knowledge_cases file_path t) as Hc.
  rewrite Hrun in Hc. inversion Hc; subst.
  eexists docs, chunks, label, size, vs. eauto 10.
Qed.

Lemma refusal_keeps_ledger (file_path : File) (t : Tools VS) :
  let '(r, t') := add_knowledge file_path t in
  succeeded r = false -> ingested_files t' = ingested_files t.
Proof. by destruct (add_knowledge_cases file_path t). Qed.

(** C10: [add_knowledge] touches the ledger only on success, and only after
    the chunks went into the index: a successful call wrote the chunks
    [texts] to the store ([add_documents] returned) and then upserted the
    record of the file; every other outcome (file not found, unsupported
    extension, binary skip, no content, zero chunks, no vector store, any
    exception) leaves [ingested_files] as it was. *)
Theorem ledger_touched_only_on_success (file_path : File) (t : Tools VS) :
  let '(r, t') := add_knowledge file_path t in
  if succeeded r then
    exists vs label texts size,
      vectorstore t = Some vs /\
      (add_documents texts vs).1 = Ok tt /\
      vectorstore t' = Some (add_documents texts vs).2 /\
      ingested_files t' =
        <[p_name file_path := record_of file_path label texts size]>
          (ingested_files t)
  else ingested_files t' = ingested_files t.
Proof.
  destruct (add_knowledge_cases file_path t); simpl; try done.
  eexists vs, label, _, size. eauto.
Qed.

(** C7: recording a file is an unconditional upsert under its file name.
    A successful ingestion sets the entry of that name to the record of the
    file, whatever was there; ingesting the same unchanged file again leaves
    the ledger equal, with the same record (so the same chunk count) under
    the name; and a different file of the same name overwrites the entry
    without adding one. *)
Theorem ledger_upsert_idempotent
    (file_path : File) (t t1 : Tools VS) (msg : string) :
  add_knowledge file_path t = (Ok (true, msg), t1) ->
  exists rec,
    r_path rec = p_str file_path /\
    ingested_files t1 = <[p_name file_path := rec]> (ingested_files t) /\
    (forall r2 t2, add_knowledge file_path t1 = (r2, t2) ->
       ingested_files t2 = ingested_files t1 /\
       ingested_files t2 !! p_name file_path = Some rec) /\
    (forall other msg' t3,
       p_name other = p_name file_path ->
       add_knowledge other t1 = (Ok (true, msg'), t3) ->
       size (ingested_files t3) = size (ingested_files t1) /\
       exists rec', r_path rec' = p_str other /\
         ingested_files t3 !! p_name file_path = Some rec').
Proof.
  intros Hfirst.
  destruct (add_knowledge_success_inv _ _ _ _ Hfirst)
    as (docs & chunks & label & size & vs
        & Hload & Hsplit & Hlabel & Hsize & Hvs & Hadd & ->).
  exists (record_of file_path label (stamp file_path label <$> chunks) size).
  split; [reflexivity |]. split; [reflexivity |].
  simpl. split.
  - intros r2 t2 Hsecond. destruct (succeeded r2) eqn:Hr2.
    + destruct r2 as [[[] msg2] |]; try discriminate.
      destruct (add_knowledge_success_inv _ _ _ _ Hsecond)
        as (docs2 & chunks2 & label2 & size2 & vs2
            & Hload2 & Hsplit2 & Hlabel2 & Hsize2 & _ & _ & ->).
      rewrite Hload in Hload2. injection Hload2 as <-.
      rewrite Hsplit in Hsplit2. injection Hsplit2 as <-.
      rewrite Hlabel in Hlabel2. injection Hlabel2 as <-.
      rewrite Hsize in Hsize2. injection Hsize2 as <-.
      simpl. rewrite insert_insert_eq.
      split; [done | apply lookup_insert_eq].
    + pose proof (refusal_keeps_ledger file_path
                    {| vectorstore :=
                         Some (add_documents (stamp file_path label <$> chunks) vs).2;
                       ingested_files :=
                         <[p_name file_path :=
                             record_of file_path label
                               (stamp file_path label <$> chunks) size]>
                           (ingested_files t) |}) as Hsame.
      rewrite Hsecond in Hsame. simpl in Hsame. rewrite (Hsame Hr2).
      split; [done | apply lookup_insert_eq].
  - intros other msg' t3 Hname Hother.
    destruct (add_knowledge_success_inv _ _ _ _ Hother)
      as (docs3 & chunks3 & label3 & size3 & vs3
          & _ & _ & _ & _ & _ & _ & ->).
    simpl. rewrite Hname. split.
    + rewrite insert_insert_eq.
      rewrite !map_size_insert. by destruct (ingested_files t !! _).
    + eexists. split; [| apply lookup_insert_eq]. done.
Qed.

(** ** Batch ingestion: [ingest_directory] *)

Lemma collect_filter (paths : list File) (skipped : nat) (acc : list File) :
  snd (foldl collect (skipped, acc) paths)
  = (acc ++ List.filter candidate paths)%list.
Proof.
  revert skipped acc. induction paths as [| p paths IH]; intros skipped acc.
  - simpl. by rewrite app_nil_r.
  - simpl. unfold candidate at 1.
    destruct (p_is_file p); simpl; [| apply IH].
    destruct (in_skip _); simpl; [apply IH |].
    destruct (in_supported _); simpl; [| apply IH].
    rewrite IH. by rewrite <- app_assoc.
Qed.

Lemma candidates_filter (dir_path : Dir) (recursive : bool) :
  candidates dir_path recursive
  = List.filter candidate
      (d_glob dir_path (if recursive then "**/*" else "*")).
Proof. unfold candidates. by rewrite collect_filter. Qed.

Lemma candidates_pass_gate (dir_path : Dir) (recursive : bool) (file_path : File) :
  file_path ∈ candidates dir_path recursive ->
  gate (PyStr.lower (p_suffix file_path)) = GatePass.
Proof.
  rewrite candidates_filter. intros Hin.
  apply list_elem_of_In, filter_In in Hin as [_ Hc].
  unfold candidate in Hc. apply andb_prop in Hc as [Hc Hsup].
  apply andb_prop in Hc as [_ Hskip]. unfold gate.
  rewrite Hsup. simpl. by destruct (in_skip _).
Qed.

Lemma add_knowledge_ingestible (file_path : File) (t : Tools VS) :
  (forall texts vs, (add_documents texts vs).1 = Ok tt) ->
  is_Some (vectorstore t) ->
  gate (PyStr.lower (p_suffix file_path)) = GatePass ->
  ingestible file_path = true ->
  exists msg t',
    add_knowledge file_path t = (Ok (true, msg), t')
    /\ is_Some (vectorstore t').
Proof.
  intros Hacc [vs Hvs] Hgate Hing.
  unfold ingestible in Hing. apply andb_prop in Hing as [Hing Hstat].
  apply andb_prop in Hing as [Hex Hload].
  unfold gate in Hgate.
  destruct (in_supported _) eqn:Hsup; simpl in Hgate; [| discriminate].
  destruct (in_skip _) eqn:Hskip; [discriminate |].
  unfold add_knowledge, try_except, add_knowledge_body.
  rewrite Hex, Hsup, Hskip. simpl.
  pose proof (_load_file_nonempty file_path) as Hnonempty.
  destruct (_load_file file_path) as [docs |]; [| discriminate].
  destruct docs as [| doc docs]; [by destruct (Hnonempty [] eq_refl) |].
  run_M.
  destruct (split_documents (doc :: docs)) as [[| c chunks] |];
    try discriminate. simpl.
  unfold supported_label, in_supported in *.
  destruct (dict_get SUPPORTED_EXTENSIONS _) as [label |]; [| discriminate].
  simpl. rewrite Hvs. simpl.
  pose proof (Hacc (stamp file_path label <$> c :: chunks) vs) as Hadd.
  destruct (add_documents _ vs) as [r vs']. simpl in Hadd. subst r.
  destruct (p_stat_size file_path) as [size |]; [| discriminate].
  simpl. eexists _, _. split; [reflexivity |]. simpl. eauto.
Qed.

(** Without content the call is refused and the instance is untouched. *)
Lemma add_knowledge_no_content (file_path : File) (t : Tools VS) :
  _load_file file_path = None ->
  exists msg, add_knowledge file_path t = (Ok (false, msg), t).
Proof.
  intros Hload. unfold add_knowledge, try_except, add_knowledge_body.
  destruct (p_exists file_path); simpl; [| eauto].
  destruct (in_supported _); simpl; [| eauto].
  destruct (in_skip _); simpl; [eauto |].
  rewrite Hload. simpl. eauto.
Qed.

Lemma ingestible_has_content (file_path : File) :
  _load_file file_path = None -> ingestible file_path = false.
Proof.
  intros Hload. unfold ingestible. rewrite Hload.
  by rewrite andb_false_r.
Qed.

Lemma new_id_peel (ids seen : gset string) (x : string) :
  x ∉ seen -> ({[x]} ∪ ids) ∖ seen = {[x]} ∪ (ids ∖ ({[x]} ∪ seen)).
Proof.
  intros Hnew. apply set_eq. intros y.
  destruct (decide (y = x)) as [-> | Hne]; set_solver.
Qed.

Lemma size_new_id (ids seen : gset string) (x : string) :
  x ∉ seen ->
  size (({[x]} ∪ ids) ∖ seen) = S (size (ids ∖ ({[x]} ∪ seen))).
Proof.
  intros Hnew. rewrite (new_id_peel _ _ _ Hnew).
  rewrite size_union by set_solver. by rewrite size_singleton.
Qed.

(** One candidate that was not seen yet is counted exactly once. *)
Lemma ingest_one_counts (b : Batch) (file_path : File) (t : Tools VS) :
  p_resolve file_path ∉ processed_files b ->
  exists b' t',
    ingest_one b file_path t = (Ok b', t') /\
    success_count b' + fail_count b' = S (success_count b + fail_count b) /\
    processed_files b' = {[ p_resolve file_path ]} ∪ processed_files b /\
    (forall success message t1,
       add_knowledge file_path t = (Ok (success, message), t1) ->
       t' = t1 /\
       success_count b' = success_count b + (if success then 1 else 0) /\
       fail_count b' = fail_count b + (if success then 0 else 1)).
Proof.
  intros Hnew. unfold ingest_one.
  rewrite bool_decide_eq_false_2 by done. run_M.
  destruct (add_knowledge_returns file_path t) as ([] & msg & t1 & ->); simpl.
  - eexists _, _. split; [reflexivity |]. simpl.
    split; [lia |]. split; [done |].
    intros ? ? ? [= <- <- <-]. repeat split; lia.
  - destruct (negb _ && negb _); simpl;
      (eexists _, _; split; [reflexivity |]; simpl;
       split; [lia |]; split; [done |];
       intros ? ? ? [= <- <- <-]; repeat split; lia).
Qed.

Lemma ingest_one_seen (b : Batch) (file_path : File) (t : Tools VS) :
  p_resolve file_path ∈ processed_files b ->
  ingest_one b file_path t = (Ok b, t).
Proof.
  intros Hseen. unfold ingest_one. by rewrite bool_decide_eq_true_2.
Qed.

Lemma ingest_loop_cons (f : File) (rest : list File) (b : Batch) (t : Tools VS) :
  ingest_loop (f :: rest) b t =
    match ingest_one b f t with
    | (Ok b', t') => ingest_loop rest b' t'
    | (Raise e, t') => (Raise e, t')
    end.
Proof. reflexivity. Qed.

(** The loop never stops early and never raises: every distinct candidate
    is counted once, as a success or as a failure. *)
Lemma ingest_loop_total (all_files : list File) (b : Batch) (t : Tools VS) :
  exists b' t',
    ingest_loop all_files b t = (Ok b', t') /\
    processed_files b'
      = list_to_set (p_resolve <$> all_files) ∪ processed_files b /\
    success_count b' + fail_count b'
      = success_count b + fail_count b
        + size (list_to_set (p_resolve <$> all_files) ∖ processed_files b
                : gset string).
Proof.
  revert b t. induction all_files as [| f rest IH]; intros b t.
  - exists b, t. simpl. split; [done |]. split; [set_solver |].
    replace (∅ ∖ processed_files b) with (∅ : gset string) by set_solver.
    rewrite size_empty. lia.
  - rewrite ingest_loop_cons, fmap_cons, list_to_set_cons.
    destruct (decide (p_resolve f ∈ processed_files b)) as [Hseen | Hnew].
    + rewrite ingest_one_seen by done.
      destruct (IH b t) as (b' & t' & -> & Hproc & Hsum).
      exists b', t'. split; [done |]. split; [set_solver |].
      rewrite Hsum. f_equal. f_equal. set_solver.
    + destruct (ingest_one_counts b f t Hnew)
        as (b1 & t1 & -> & Hsum1 & Hproc1 & _).
      destruct (IH b1 t1) as (b' & t' & -> & Hproc & Hsum).
      exists b', t'. split; [done |]. split; [set_solver |].
      rewrite Hsum, Hsum1, Hproc1.
      rewrite (size_new_id _ _ _ Hnew). lia.
Qed.

(** With an index that takes every write, the loop counts the ingestible
    files as successes and the files without content as failures. *)
Lemma ingest_loop_split (all_files : list File) (b : Batch) (t : Tools VS) :
  (forall texts vs, (add_documents texts vs).1 = Ok tt) ->
  is_Some (vectorstore t) ->
  NoDup (p_resolve <$> all_files) ->
  (forall f, f ∈ all_files -> p_resolve f ∉ processed_files b) ->
  Forall (fun f =>
            gate (PyStr.lower (p_suffix f)) = GatePass
            /\ (ingestible f = true \/ _load_file f = None)) all_files ->
  exists b' t',
    ingest_loop all_files b t = (Ok b', t') /\
    success_count b'
      = success_count b + length (List.filter ingestible all_files) /\
    fail_count b'
      = fail_count b
        + length (List.filter (fun f => negb (ingestible f)) all_files) /\
    is_Some (vectorstore t').
Proof.
  intros Hacc. revert b t.
  induction all_files as [| f rest IH]; intros b t Hvs Hdup Hnew Hall.
  - exists b, t. simpl. repeat split; try lia; done.
  - rewrite ingest_loop_cons.
    rewrite fmap_cons in Hdup. apply NoDup_cons in Hdup as [Hfresh Hdup].
    apply Forall_cons in Hall as [[Hgate Hf] Hall].
    assert (p_resolve f ∉ processed_files b) as Hnewf
      by (apply Hnew, elem_of_cons; by left).
    destruct (ingest_one_counts b f t Hnewf)
      as (b1 & t1 & -> & _ & Hproc1 & Hrun).
    assert (forall g, g ∈ rest -> p_resolve g ∉ processed_files b1) as Hnew1.
    { intros g Hg. rewrite Hproc1. apply not_elem_of_union. split.
      - intros Heq%elem_of_singleton. apply Hfresh. rewrite <- Heq.
        by apply list_elem_of_fmap_2.
      - apply Hnew, elem_of_cons. by right. }
    destruct Hf as [Hgood | Hbad].
    + destruct (add_knowledge_ingestible f t Hacc Hvs Hgate Hgood)
        as (msg & t' & Hadd & Hvs').
      destruct (Hrun _ _ _ Hadd) as (-> & Hs & Hf).
      destruct (IH b1 t' Hvs' Hdup Hnew1 Hall) as (b' & t2 & -> & Hs' & Hf' & Hvs2).
      exists b', t2. simpl. rewrite Hgood. simpl.
      repeat split; try lia; done.
    + destruct (add_knowledge_no_content f t Hbad) as (msg & Hadd).
      destruct (Hrun _ _ _ Hadd) as (-> & Hs & Hf).
      destruct (IH b1 t Hvs Hdup Hnew1 Hall) as (b' & t2 & -> & Hs' & Hf' & Hvs2).
      exists b', t2. simpl. rewrite (ingestible_has_content f Hbad). simpl.
      repeat split; try lia; done.
Qed.

Lemma filter_all_ingestible (l : list File) :
  Forall (fun f => ingestible f = true) l ->
  List.filter ingestible l = l
  /\ List.filter (fun f => negb (ingestible f)) l = [].
Proof.
  induction 1 as [| f l Hf _ [IH1 IH2]]; simpl; [done |].
  rewrite Hf. simpl. by rewrite IH1, IH2.
Qed.

(** C8: for a path that does not exist or is not a directory,
    [ingest_directory] answers at once with no success, one failure and the
    single message "Directory not found: <path>"; the instance is not
    touched, so nothing was processed. *)
Theorem ingest_directory_not_found
    (dir_path : Dir) (recursive : bool) (t : Tools VS) :
  d_exists dir_path = false \/ d_is_dir dir_path = false ->
  ingest_directory dir_path recursive t
  = (Ok (0, 1, ["Directory not found: " ++ d_str dir_path]), t).
Proof.
  intros Hmissing. unfold ingest_directory.
  destruct Hmissing as [-> | ->]; simpl; [done |].
  by rewrite orb_true_r.
Qed.

(** C3 (amended): a candidate whose extraction yields no documents is
    counted in [fail_count] (the result has no separate skipped count) and
    adds nothing to the error list; a candidate whose documents split into
    zero chunks is counted in [fail_count] too, and its message "No text
    chunks created from <name>" is added to the error list (unless that
    message contains one of the two filtered phrases). *)
Theorem empty_content_is_a_silent_failure
    (b : Batch) (file_path : File) (t : Tools VS) :
  p_exists file_path = true ->
  gate (PyStr.lower (p_suffix file_path)) = GatePass ->
  p_resolve file_path ∉ processed_files b ->
  (_load_file file_path = None ->
     ingest_one b file_path t
     = (Ok (mkBatch (success_count b) (S (fail_count b)) (errors b)
              ({[ p_resolve file_path ]} ∪ processed_files b)), t)) /\
  (forall docs,
     _load_file file_path = Some docs -> split_documents docs = Ok [] ->
     ingest_one b file_path t
     = (Ok (mkBatch (success_count b) (S (fail_count b))
              (errors b
                 ++ kept_error (p_name file_path)
                      ("No text chunks created from " ++ p_name file_path))%list
              ({[ p_resolve file_path ]} ∪ processed_files b)), t)).
Proof.
  intros Hex Hgate Hnew. unfold gate in Hgate.
  destruct (in_supported _) eqn:Hsup; simpl in Hgate; [| discriminate].
  destruct (in_skip _) eqn:Hskip; [discriminate |].
  split.
  - intros Hload. unfold ingest_one.
    rewrite bool_decide_eq_false_2 by done.
    unfold add_knowledge, try_except, add_knowledge_body.
    rewrite Hex, Hsup, Hskip, Hload. reflexivity.
  - intros docs Hload Hsplit. unfold ingest_one.
    rewrite bool_decide_eq_false_2 by done.
    unfold add_knowledge, try_except, add_knowledge_body.
    rewrite Hex, Hsup, Hskip, Hload. simpl.
    pose proof (_load_file_nonempty _ _ Hload) as Hne.
    destruct docs as [| doc docs]; [done |].
    run_M. rewrite Hsplit. simpl. unfold kept_error.
    destruct (negb _ && negb _); simpl; [done |].
    by rewrite app_nil_r.
Qed.

(** *** The batch, file by file *)

(** One step of the second loop, from the outcome of [add_knowledge]. *)
Lemma ingest_one_run (b : Batch) (file_path : File) (t t1 : Tools VS)
    (success : bool) (message : string) :
  p_resolve file_path ∉ processed_files b ->
  add_knowledge file_path t = (Ok (success, message), t1) ->
  exists b',
    ingest_one b file_path t = (Ok b', t1) /\
    success_count b' = success_count b + (if success then 1 else 0) /\
    fail_count b' = fail_count b + (if success then 0 else 1) /\
    errors b'
    = (errors b
       ++ (if success then [] else kept_error (p_name file_path) message))%list /\
    processed_files b' = {[ p_resolve file_path ]} ∪ processed_files b.
Proof.
  intros Hnew Hadd. unfold ingest_one.
  rewrite bool_decide_eq_false_2 by done. run_M. rewrite Hadd.
  unfold kept_error. destruct success; simpl.
  - eexists. split; [reflexivity |]. simpl.
    rewrite app_nil_r. repeat split; lia.
  - destruct (negb _ && negb _); simpl;
      (eexists; split; [reflexivity |]; simpl;
       rewrite ?app_nil_r; repeat split; lia).
Qed.

(** A file the single-file path takes to the end leaves the instance that
    [recorded] describes. *)
Lemma add_knowledge_recorded (file_path : File) (t : Tools VS) :
  (forall texts vs, (add_documents texts vs).1 = Ok tt) ->
  is_Some (vectorstore t) ->
  gate (PyStr.lower (p_suffix file_path)) = GatePass ->
  ingestible file_path = true ->
  exists msg,
    add_knowledge file_path t = (Ok (true, msg), recorded t file_path)
    /\ is_Some (vectorstore (recorded t file_path)).
Proof.
  intros Hacc Hvs Hgate Hing.
  destruct (add_knowledge_ingestible file_path t Hacc Hvs Hgate Hing)
    as (msg & t' & Hadd & Hvs').
  destruct (add_knowledge_success_inv _ _ _ _ Hadd)
    as (docs & chunks & label & size & vs & Hload & Hsplit & Hlabel & Hsize
        & Hstore & _ & Ht').
  assert (t' = recorded t file_path) as <-; [| by eauto].
  rewrite Ht'. unfold recorded, written, chunks_of, label_of.
  rewrite Hstore, Hload, Hsplit, Hsize.
  unfold supported_label in Hlabel.
  destruct (dict_get SUPPORTED_EXTENSIONS _) as [v |]; [| discriminate].
  injection Hlabel as ->. reflexivity.
Qed.

(** A candidate without loadable content is refused, the instance as it
    was; the error list keeps [refusal_error] of it. *)
Lemma add_knowledge_refused (file_path : File) (t : Tools VS) :
  gate (PyStr.lower (p_suffix file_path)) = GatePass ->
  _load_file file_path = None ->
  exists msg,
    add_knowledge file_path t = (Ok (false, msg), t)
    /\ kept_error (p_name file_path) msg = refusal_error file_path.
Proof.
  intros Hgate Hload. unfold gate in Hgate.
  destruct (in_supported _) eqn:Hsup; simpl in Hgate; [| discriminate].
  destruct (in_skip _) eqn:Hskip; [discriminate |].
  unfold add_knowledge, try_except, add_knowledge_body, refusal_error.
  destruct (p_exists file_path); simpl.
  - rewrite Hsup, Hskip, Hload. simpl. eexists. split; reflexivity.
  - eexists. split; reflexivity.
Qed.

(** With an index that takes every write, the loop over distinct
    candidates, each ingestible or without content, ends in the instance
    in which exactly the ingestible ones are recorded, in order. *)
Lemma ingest_loop_effect (all_files : list File) (b : Batch) (t : Tools VS) :
  (forall texts vs, (add_documents texts vs).1 = Ok tt) ->
  is_Some (vectorstore t) ->
  NoDup (p_resolve <$> all_files) ->
  (forall f, f ∈ all_files -> p_resolve f ∉ processed_files b) ->
  Forall (fun f =>
            gate (PyStr.lower (p_suffix f)) = GatePass
            /\ (ingestible f = true \/ _load_file f = None)) all_files ->
  exists b',
    ingest_loop all_files b t
    = (Ok b', ingest_all (List.filter ingestible all_files) t) /\
    success_count b'
    = success_count b + length (List.filter ingestible all_files) /\
    fail_count b'
    = fail_count b
      + length (List.filter (fun f => negb (ingestible f)) all_files) /\
    errors b'
    = (errors b
       ++ mjoin (refusal_error
                   <$> List.filter (fun f => negb (ingestible f)) all_files))%list.
Proof.
  intros Hacc. revert b t.
  induction all_files as [| f rest IH]; intros b t Hvs Hdup Hnew Hall.
  - exists b. simpl. rewrite app_nil_r. repeat split; lia.
  - rewrite ingest_loop_cons.
    rewrite fmap_cons in Hdup. apply NoDup_cons in Hdup as [Hfresh Hdup].
    apply Forall_cons in Hall as [[Hgate Hf] Hall].
    assert (p_resolve f ∉ processed_files b) as Hnewf
      by (apply Hnew, elem_of_cons; by left).
    assert (forall b1, processed_files b1 = {[ p_resolve f ]} ∪ processed_files b ->
            forall g, g ∈ rest -> p_resolve g ∉ processed_files b1) as Hnew1.
    { intros b1 Hproc1 g Hg. rewrite Hproc1. apply not_elem_of_union. split.
      - intros Heq%elem_of_singleton. apply Hfresh. rewrite <- Heq.
        by apply list_elem_of_fmap_2.
      - apply Hnew, elem_of_cons. by right. }
    destruct Hf as [Hgood | Hbad].
    + destruct (add_knowledge_recorded f t Hacc Hvs Hgate Hgood)
        as (msg & Hadd & Hvs').
      destruct (ingest_one_run b f t _ _ _ Hnewf Hadd)
        as (b1 & -> & Hs & Hf & He & Hproc).
      destruct (IH b1 _ Hvs' Hdup (Hnew1 b1 Hproc) Hall)
        as (b' & -> & Hs' & Hf' & He').
      exists b'. cbn [List.filter]. rewrite Hgood. cbn [negb].
      split; [reflexivity |].
      rewrite Hs', Hf', He', Hs, Hf, He, app_nil_r. cbn [length].
      repeat split; lia.
    + destruct (add_knowledge_refused f t Hgate Hbad) as (msg & Hadd & Hkept).
      destruct (ingest_one_run b f t _ _ _ Hnewf Hadd)
        as (b1 & -> & Hs & Hf & He & Hproc).
      destruct (IH b1 _ Hvs Hdup (Hnew1 b1 Hproc) Hall)
        as (b' & -> & Hs' & Hf' & He').
      exists b'. cbn [List.filter].
      rewrite (ingestible_has_content f Hbad). cbn [negb].
      split; [reflexivity |].
      rewrite Hs', Hf', He', Hs, Hf, He, Hkept, fmap_cons. cbn [length mjoin list_join].
      rewrite <- app_assoc. repeat split; lia.
Qed.

(** *** The walk with queries that can raise *)

Lemma walk_collect_loop_answers (faults : Walk.Faults) (paths : list File)
    (acc : nat * list File) :
  Forall (fun f => Walk.is_file_fault faults f = None) paths ->
  Walk.collect_loop faults paths acc = Ok (foldl collect acc paths).
Proof.
  intros Hall. revert acc.
  induction Hall as [| f rest Hf _ IH]; intros [skipped files]; [done |].
  cbn [Walk.collect_loop foldl]. unfold Walk.collect, collect.
  rewrite Hf. cbn [Walk.query mbind result_bind].
  destruct (negb (p_is_file f)); [apply IH |].
  destruct (in_skip _); [apply IH |].
  destruct (negb (in_supported _)); apply IH.
Qed.

Lemma walk_collect_loop_raises (faults : Walk.Faults) (paths : list File)
    (acc : nat * list File) (e : string) :
  Walk.collect_loop faults paths acc = Raise e ->
  exists f, f ∈ paths /\ Walk.is_file_fault faults f = Some e.
Proof.
  revert acc. induction paths as [| f rest IH]; intros [skipped files] Hrun;
    [discriminate |].
  cbn [Walk.collect_loop] in Hrun. unfold Walk.collect in Hrun.
  destruct (Walk.is_file_fault faults f) as [e' |] eqn:Hf;
    cbn [Walk.query mbind result_bind] in Hrun.
  - injection Hrun as ->. exists f. split; [apply list_elem_of_here | done].
  - assert (exists acc', Walk.collect_loop faults rest acc' = Raise e)
      as [acc' Hrest].
    { destruct (negb (p_is_file f)); [eauto |].
      destruct (in_skip _); [eauto |].
      destruct (negb (in_supported _)); eauto. }
    destruct (IH _ Hrest) as (g & Hg & Hfault).
    exists g. split; [by apply list_elem_of_further | done].
Qed.

(** When the first loop ends, it found the candidates. *)
Lemma walk_candidates_answers (faults : Walk.Faults) (dir_path : Dir)
    (recursive : bool) :
  Walk.glob_fault faults = None ->
  Forall (fun f => Walk.is_file_fault faults f = None)
    (d_glob dir_path (if recursive then "**/*" else "*")) ->
  Walk.candidates faults dir_path recursive = Ok (candidates dir_path recursive).
Proof.
  intros Hglob Hall. unfold Walk.candidates, candidates.
  rewrite (walk_collect_loop_answers _ _ _ Hall), Hglob. reflexivity.
Qed.

Lemma walk_candidates_raises (faults : Walk.Faults) (dir_path : Dir)
    (recursive : bool) (e : string) :
  Walk.candidates faults dir_path recursive = Raise e ->
  walk_fault faults dir_path recursive e.
Proof.
  unfold Walk.candidates, walk_fault. intros Hrun.
  destruct (Walk.collect_loop faults _ _) as [acc |] eqn:Hloop.
  - cbn [mbind result_bind] in Hrun.
    destruct (Walk.glob_fault faults) as [e' |]; [| discriminate].
    injection Hrun as ->. auto.
  - injection Hrun as ->.
    destruct (walk_collect_loop_raises _ _ _ _ Hloop) as (f & Hf & Hfault).
    do 3 right. eauto.
Qed.

Lemma walk_candidates_ok (faults : Walk.Faults) (dir_path : Dir)
    (recursive : bool) (files : list File) :
  Walk.candidates faults dir_path recursive = Ok files ->
  forall f, f ∈ files -> f ∈ d_glob dir_path (if recursive then "**/*" else "*").
Proof.
  unfold Walk.candidates. intros Hrun.
  destruct (Walk.collect_loop faults _ _) as [acc |] eqn:Hloop; [| discriminate].
  cbn [mbind result_bind] in Hrun.
  destruct (Walk.glob_fault faults); [discriminate |].
  injection Hrun as <-.
  assert (forall paths acc0 acc1,
            Walk.collect_loop faults paths acc0 = Ok acc1 ->
            forall f, f ∈ acc1.2 -> f ∈ acc0.2 \/ f ∈ paths) as Hsub.
  { induction paths as [| p rest IH]; intros [sk0 fs0] acc1 Hl f Hf.
    - injection Hl as <-. by left.
    - cbn [Walk.collect_loop] in Hl. unfold Walk.collect in Hl.
      destruct (Walk.is_file_fault faults p);
        cbn [Walk.query mbind result_bind] in Hl; [discriminate |].
      destruct (negb (p_is_file p)).
      { destruct (IH _ _ Hl f Hf) as [? | ?]; [by left |].
        right. by apply list_elem_of_further. }
      destruct (in_skip _).
      { destruct (IH _ _ Hl f Hf) as [? | ?]; [by left |].
        right. by apply list_elem_of_further. }
      destruct (negb (in_supported _)).
      { destruct (IH _ _ Hl f Hf) as [? | ?]; [by left |].
        right. by apply list_elem_of_further. }
      destruct (IH _ _ Hl f Hf) as [Hin | ?].
      + cbn [snd] in Hin. apply elem_of_app in Hin as [? | Hin]; [by left |].
        apply list_elem_of_singleton in Hin as ->. right. apply list_elem_of_here.
      + right. by apply list_elem_of_further. }
  intros f Hf. destruct (Hsub _ _ _ Hloop f Hf) as [Hnil | ?]; [| done].
  cbn [snd] in Hnil. by apply elem_of_nil in Hnil.
Qed.

Lemma walk_ingest_one_answers (faults : Walk.Faults) (b : Batch)
    (file_path : File) (t : Tools VS) :
  Walk.resolve_fault faults file_path = None ->
  Walk.ingest_one faults b file_path t = ingest_one b file_path t.
Proof.
  intros Hf. unfold Walk.ingest_one, ingest_one. rewrite Hf. reflexivity.
Qed.

Lemma walk_ingest_loop_answers (faults : Walk.Faults) (all_files : list File)
    (b : Batch) (t : Tools VS) :
  Forall (fun f => Walk.resolve_fault faults f = None) all_files ->
  Walk.ingest_loop faults all_files b t = ingest_loop all_files b t.
Proof.
  intros Hall. revert b t.
  induction Hall as [| f rest Hf _ IH]; intros b t; [done |].
  rewrite ingest_loop_cons. cbn [Walk.ingest_loop]. unfold mbind at 1, M_bind.
  rewrite (walk_ingest_one_answers _ _ _ _ Hf).
  destruct (ingest_one b f t) as [[b' | e] t']; [apply IH | done].
Qed.

(** The second loop raises only what a [resolve] raised: no exception of
    the ingestion of a file leaves it. *)
Lemma walk_ingest_loop_raises (faults : Walk.Faults) (all_files : list File)
    (b : Batch) (t t' : Tools VS) (e : string) :
  Walk.ingest_loop faults all_files b t = (Raise e, t') ->
  exists f, f ∈ all_files /\ Walk.resolve_fault faults f = Some e.
Proof.
  revert b t. induction all_files as [| f rest IH]; intros b t Hrun;
    [discriminate |].
  cbn [Walk.ingest_loop] in Hrun. unfold mbind at 1, M_bind in Hrun.
  destruct (Walk.resolve_fault faults f) as [e' |] eqn:Hf.
  - unfold Walk.ingest_one in Hrun. rewrite Hf in Hrun.
    injection Hrun as -> _.
    exists f. split; [apply list_elem_of_here | done].
  - rewrite (walk_ingest_one_answers _ _ _ _ Hf) in Hrun.
    destruct (decide (p_resolve f ∈ processed_files b)) as [Hseen | Hnew].
    + rewrite ingest_one_seen in Hrun by done.
      destruct (IH _ _ Hrun) as (g & Hg & Hfault).
      exists g. split; [by apply list_elem_of_further | done].
    + destruct (ingest_one_counts b f t Hnew) as (b1 & t1 & Hone & _).
      rewrite Hone in Hrun.
      destruct (IH _ _ Hrun) as (g & Hg & Hfault).
      exists g. split; [by apply list_elem_of_further | done].
Qed.

(** When every path query answers, the walk is [ingest_directory]. *)
Lemma walk_ingest_directory_answers (faults : Walk.Faults) (dir_path : Dir)
    (recursive : bool) (t : Tools VS) :
  walk_answers faults dir_path recursive ->
  Walk.ingest_directory faults dir_path recursive t
  = ingest_directory dir_path recursive t.
Proof.
  intros (Hex & His & Hglob & Hall).
  unfold Walk.ingest_directory, ingest_directory.
  rewrite Hex, His.
  rewrite (walk_candidates_answers faults dir_path recursive Hglob)
    by (eapply Forall_impl; [exact Hall | by intros f [? _]]).
  run_M. unfold mbind, M_bind, mret, M_ret.
  destruct (d_exists dir_path); simpl; [| done].
  destruct (d_is_dir dir_path); simpl; [| done].
  destruct (length (candidates dir_path recursive) =? 0); [done |].
  rewrite walk_ingest_loop_answers; [done |].
  apply Forall_forall. intros f Hf.
  rewrite Forall_forall in Hall. apply Hall.
  rewrite candidates_filter in Hf.
  by apply list_elem_of_In, filter_In in Hf as [Hf%list_elem_of_In _].
Qed.

Lemma walk_no_faults (dir_path : Dir) (recursive : bool) (t : Tools VS) :
  Walk.ingest_directory Walk.no_faults dir_path recursive t
  = ingest_directory dir_path recursive t.
Proof.
  apply walk_ingest_directory_answers.
  repeat split. by apply Forall_forall.
Qed.

(** Whatever leaves [ingest_directory] as an exception was raised by a
    path query of its walk. *)
Lemma walk_ingest_directory_raises (faults : Walk.Faults) (dir_path : Dir)
    (recursive : bool) (t t' : Tools VS) (e : string) :
  Walk.ingest_directory faults dir_path recursive t = (Raise e, t') ->
  walk_fault faults dir_path recursive e.
Proof.
  unfold Walk.ingest_directory. intros Hrun.
  destruct (Walk.exists_fault faults) as [e1 |] eqn:Hex.
  { injection Hrun as -> _. by left. }
  revert Hrun. run_M. unfold mbind, M_bind, mret, M_ret.
  destruct (d_exists dir_path); simpl; [| discriminate].
  destruct (Walk.is_dir_fault faults) as [e2 |] eqn:His; simpl.
  { intros [= -> _]. right. by left. }
  destruct (d_is_dir dir_path); simpl; [| discriminate].
  destruct (Walk.candidates faults dir_path recursive) as [files | e3] eqn:Hc.
  - destruct (length files =? 0); [discriminate |].
    destruct (Walk.ingest_loop faults files _ t) as [[b | e4] t4] eqn:Hloop;
      [discriminate |].
    intros [= -> _].
    destruct (walk_ingest_loop_raises _ _ _ _ _ _ Hloop) as (f & Hf & Hfault).
    do 3 right. exists f. split; [| by right].
    by apply (walk_candidates_ok _ _ _ _ Hc).
  - intros [= -> _]. by apply walk_candidates_raises.
Qed.

(** C1, as amended. An exception that leaves [ingest_directory] was raised
    by a path query of its own walk ([exists], [is_dir], the iteration of
    [glob], [is_file], [resolve]), never by the ingestion of a file. When
    these queries answer, the call returns a triple and no file stops the
    batch: on an existing directory with candidates, every distinct
    candidate is counted, as a success or as a failure; and when the
    candidates are N distinct files of which one has no loadable content
    and the others are ingestible, with an index that takes every write,
    the triple has N-1 successes and one failure, the error list holds at
    most the "File not found" entry of the one file, and the instance is
    left with every other file recorded, in order, and nothing else
    changed. *)
Theorem partial_failure_isolation
    (faults : Walk.Faults) (dir_path : Dir) (recursive : bool) (t : Tools VS) :
  (forall e t',
     Walk.ingest_directory faults dir_path recursive t = (Raise e, t') ->
     walk_fault faults dir_path recursive e) /\
  (walk_answers faults dir_path recursive ->
   exists success fail errs t',
     Walk.ingest_directory faults dir_path recursive t
     = (Ok (success, fail, errs), t') /\
     (d_exists dir_path = true -> d_is_dir dir_path = true ->
      candidates dir_path recursive <> [] ->
      success + fail
      = size (list_to_set (p_resolve <$> candidates dir_path recursive)
              : gset string)) /\
     (forall before bad after,
        d_exists dir_path = true -> d_is_dir dir_path = true ->
        candidates dir_path recursive = (before ++ bad :: after)%list ->
        NoDup (p_resolve <$> candidates dir_path recursive) ->
        is_Some (vectorstore t) ->
        (forall texts vs, (add_documents texts vs).1 = Ok tt) ->
        Forall (fun f => ingestible f = true) (before ++ after)%list ->
        _load_file bad = None ->
        success = length (candidates dir_path recursive) - 1 /\ fail = 1 /\
        errs = refusal_error bad /\
        t' = ingest_all (before ++ after)%list t)).
Proof.
  split; [intros e t'; apply walk_ingest_directory_raises |].
  intros Hanswers. rewrite (walk_ingest_directory_answers _ _ _ _ Hanswers).
  unfold ingest_directory.
  destruct (negb (d_exists dir_path) || negb (d_is_dir dir_path)) eqn:Hdir.
  { eexists _, _, _, _. split; [reflexivity |]. split.
    - intros Hex His. rewrite Hex, His in Hdir. discriminate.
    - intros ? ? ? Hex His. rewrite Hex, His in Hdir. discriminate. }
  destruct (length (candidates dir_path recursive) =? 0) eqn:Hlen.
  { apply Nat.eqb_eq in Hlen.
    eexists _, _, _, _. split; [reflexivity |]. split.
    - intros _ _ Hne. by apply nil_length_inv in Hlen.
    - intros before bad after _ _ Heq. rewrite Heq, length_app in Hlen.
      simpl in Hlen. lia. }
  run_M.
  destruct (ingest_loop_total (candidates dir_path recursive)
              (mkBatch 0 0 [] ∅) t) as (b' & t' & Hloop & _ & Hsum).
  rewrite Hloop. simpl.
  eexists _, _, _, _. split; [reflexivity |]. split.
  - intros _ _ _. rewrite Hsum. simpl. f_equal. set_solver.
  - intros before bad after _ _ Heq Hdup Hvs Hacc Hgood Hbad.
    destruct (ingest_loop_effect (candidates dir_path recursive)
                (mkBatch 0 0 [] ∅) t Hacc Hvs Hdup)
      as (b2 & Hloop2 & Hs & Hf & He).
    { intros g _. simpl. set_solver. }
    { apply Forall_forall. intros g Hg. split.
      - by apply (candidates_pass_gate dir_path recursive).
      - rewrite Heq in Hg. apply elem_of_app in Hg as [Hg | Hg].
        + left. rewrite Forall_forall in Hgood. apply Hgood, elem_of_app. by left.
        + apply elem_of_cons in Hg as [-> | Hg]; [by right |].
          left. rewrite Forall_forall in Hgood. apply Hgood, elem_of_app. by right. }
    rewrite Hloop in Hloop2. injection Hloop2 as <- ->.
    rewrite Hs, Hf, He. simpl. rewrite Heq.
    apply Forall_app in Hgood as [Hb Ha].
    destruct (filter_all_ingestible _ Hb) as [Hb1 Hb2].
    destruct (filter_all_ingestible _ Ha) as [Ha1 Ha2].
    rewrite !List.filter_app. simpl.
    rewrite (ingestible_has_content bad Hbad). simpl.
    rewrite Hb1, Hb2, Ha1, Ha2. simpl.
    rewrite !length_app, app_nil_r. simpl.
    repeat split; lia.
Qed.

End Ingestion.

(** ** Retrieval: [search_knowledge] *)

(** *** The rounding of the float operations keeps the order *)

Section FloatFacts.

Import PyFormat.




















End FloatFacts.




(** What the search of the demonstration prints. *)
Lemma search_demo_relevance :
  relevance_of <$> search_knowledge (index := Demo.store_index)
                     (mkTools (Some (Demo.mkStore [] Demo.demo_ranking)) ∅)
                     "blink an LED" 3
  = [Some "90.00%"; Some "70.00%"; Some "-50.00%"].
Proof. by vm_compute. Qed.

(** Nothing clamps the percentage: a distance above 1 prints a negative
    score, a negative distance a score above 100. *)
Lemma relevance_not_clamped :
  relevance_of <$> search_knowledge (index := Demo.store_index)
                     (mkTools (Some (Demo.mkStore []
                        [ (mkDocument "a" ∅, 3 # 2);
                          (mkDocument "b" ∅, -1 # 5) ])) ∅) "q" 2
  = [Some "-50.00%"; Some "120.00%"].
Proof. by vm_compute. Qed.

(** ** The dry run: [scan_directory] *)

(** C4: on three [.py], two [.png] and one 50-byte [.pdf] the scan reports
    six files, not four: [scan_directory] leaves out [.sb3] alone, not the
    skip set, so both images are counted (under the type "Image"), next to
    the PDF, which is counted by its extension; [ingest_directory] keeps
    four candidates of the same directory. *)
Theorem scan_counts_skip_extensions :
  scanned_total (scan_directory Demo.mixed_dir true) = Some 6
  /\ scanned_count (scan_directory Demo.mixed_dir true) "Image" = Some 2
  /\ scanned_count (scan_directory Demo.mixed_dir true) "PDF Document" = Some 1
  /\ length (candidates Demo.mixed_dir true) = 4.
Proof. by vm_compute. Qed.

(** Whatever the directory, a file with a shared extension other than
    [.sb3] adds one to the total of the scan. *)
Lemma scan_one_counts_shared (stats : ScanStats) (file_path : File) (size : nat) :
  p_is_file file_path = true ->
  PyStr.lower (p_suffix file_path) ∈ SHARED_EXTENSIONS ->
  PyStr.lower (p_suffix file_path) <> ".sb3" ->
  p_stat_size file_path = Ok size ->
  exists stats',
    scan_one stats file_path = Ok stats'
    /\ total_files stats' = S (total_files stats).
Proof.
  intros Hfile Hin Hne Hsize. unfold scan_one. rewrite Hfile, Hsize. simpl.
  destruct (PyStr.lower (p_suffix file_path)) eqn:E; rewrite <- E in *;
    cbn in Hin; cases_of_elem Hin; try done;
    match goal with
    | H : _ = ?e |- _ =>
        rewrite H;
        eval_test (in_supported e); eval_test (e =? ".sb3")%string;
        eval_test (supported_label e)
    end; simpl;
    destruct (default _ _) as [count mb]; eauto.
Qed.

(** The test of [scan_directory] and the one of [ingest_directory] differ
    on every shared extension but [.sb3]. *)
Lemma scan_test_differs (ext : string) :
  ext ∈ SHARED_EXTENSIONS -> ext <> ".sb3" ->
  negb (in_supported ext) || String.eqb ext ".sb3" = false
  /\ in_skip ext = true.
Proof.
  intros Hin Hne. cbn in Hin. cases_of_elem Hin; try done; by vm_compute.
Qed.

(** ** The start-up decision *)

Lemma py_int_floor (x : Q) : (0 <= x)%Q -> Agent.py_int x = Qfloor x.
Proof.
  destruct x as [n d]. unfold Qle, Agent.py_int, Qfloor. simpl.
  intros Hn. apply Z.quot_div_nonneg; lia.
Qed.

Lemma tolerance_floor (total : nat) :
  Agent.tolerance total = Qfloor (inject_Z (Z.of_nat total) * (5 # 100)).
Proof.
  unfold Agent.tolerance. apply py_int_floor.
  apply Qmult_le_0_compat; [| done].
  unfold Qle. simpl. lia.
Qed.

(** The tolerance is a twentieth of the scanned total, rounded down. *)
Lemma tolerance_twentieth (total : nat) :
  Agent.tolerance total = (Z.of_nat total / 20)%Z.
Proof.
  rewrite tolerance_floor. unfold Qfloor, Qmult, inject_Z. simpl.
  rewrite <- (Z.div_mul_cancel_r (Z.of_nat total) 20 5) by lia.
  reflexivity.
Qed.

Section StartupDecision.

Context {VS : Type} {index : CorpusIndex VS} {splitter : TextSplitter}
        {asyncio : EventLoop}.

Lemma length_get_ingested_files (t : Tools VS) :
  length (get_ingested_files t) = size (ingested_files t).
Proof.
  unfold get_ingested_files. by rewrite length_fmap, length_map_to_list.
Qed.

(** C9: once the scan of the knowledge base gave [total] files and the
    ledger holds [n] entries, the start-up returns without ingesting exactly
    when [n >= total - floor(total * 0.05)] (an empty knowledge base is the
    case [total = 0]). Otherwise it goes on to the ingestion, and there the
    code departs from the claim: the recursive ingestion of the
    knowledge-base directory runs only when no event loop is running in the
    calling thread; inside a running loop, which is where [main.py] builds
    the agent, [run_until_complete] raises, the start-up ends in its
    "Auto-ingest error" branch and nothing is ingested. *)
Theorem auto_ingest_threshold (kb : Dir) (t : Tools VS) (stats : ScanStats) :
  scan_directory kb true = Ok (ScanOk stats) ->
  let total := Z.of_nat (total_files stats) in
  let n := Z.of_nat (size (ingested_files t)) in
  Agent._auto_ingest_on_startup kb t =
    if (total - Qfloor (inject_Z total * (5 # 100)) <=? n)%Z then
      (Ok (if total_files stats =? 0 then Agent.KnowledgeBaseEmpty
           else Agent.AlreadyIngested (size (ingested_files t))), t)
    else if loop_running then
      (Ok (Agent.AutoIngestError
             "Cannot run the event loop while another loop is running"), t)
    else
      match ingest_directory kb true t with
      | (Ok (success, fail, errs), t') => (Ok (Agent.Ingested success fail errs), t')
      | (Raise e, t') => (Ok (Agent.AutoIngestError e), t')
      end.
Proof.
  intros Hscan total n. subst total n.
  rewrite <- tolerance_floor.
  unfold Agent._auto_ingest_on_startup, try_except, Agent._auto_ingest_body,
    Agent.scan_knowledge_base, Agent.ingest_knowledge_base,
    Agent.run_until_complete.
  run_M. rewrite Hscan. simpl.
  destruct (total_files stats =? 0) eqn:Hzero.
  - apply Nat.eqb_eq in Hzero. rewrite Hzero.
    rewrite tolerance_twentieth.
    change (Z.of_nat 0 - Z.of_nat 0 `div` 20)%Z with 0%Z.
    destruct (0 <=? Z.of_nat (size (ingested_files t)))%Z eqn:Hle; [done |].
    apply Z.leb_gt in Hle. lia.
  - rewrite length_get_ingested_files.
    destruct (_ <=? _)%Z; [done |].
    destruct loop_running; [done |].
    by destruct (ingest_directory kb true t) as [[[[s f] errs] | e] t'].
Qed.

End StartupDecision.

(** ** Concrete runs *)

Module Runs.

Import Demo.

#[local] Existing Instance store_index.
#[local] Existing Instance whole_splitter.

Lemma partial_failure_isolation_witness :
  Walk.ingest_directory Walk.no_faults one_locked true fresh
  = (Ok (2, 1, []), ingest_all [blink; notes] fresh).
Proof.
  destruct (partial_failure_isolation Walk.no_faults one_locked true fresh)
    as [_ Hrun].
  destruct Hrun as (success & fail & errs & t' & Hrun & _ & Hsplit).
  - repeat split. by apply Forall_forall.
  - destruct (Hsplit [blink] locked [notes]) as (-> & -> & -> & ->).
    + reflexivity.
    + reflexivity.
    + vm_compute. reflexivity.
    + by_evaluation.
    + eexists. reflexivity.
    + intros texts vs. reflexivity.
    + repeat constructor; vm_compute; reflexivity.
    + vm_compute. reflexivity.
    + exact Hrun.
Defined.

(** C1, as the spec words it, fails: on a knowledge base with an entry
    whose [is_file] raises, the exception leaves [ingest_directory]; the
    file listed before it is not ingested. *)
Lemma walk_exception_escapes :
  Walk.ingest_directory Samples.private_denied Samples.with_private true fresh
  = (Raise "[Errno 13] Permission denied: 'kb/private/notes.txt'", fresh).
Proof. by vm_compute. Qed.

(** C3, as the spec words it, fails: a batch made of one 2-byte text file,
    whose extraction yields nothing, comes back with a failure count of 1
    (and an empty error list). *)
Lemma two_byte_file_counts_as_failure :
  _load_file tiny = None /\
  (ingest_directory (dir_of [tiny]) true fresh).1 = Ok (0, 1, []).
Proof. by vm_compute. Qed.

Lemma empty_content_is_a_silent_failure_witness :
  ingest_one (mkBatch 0 0 [] ∅) tiny fresh
  = (Ok (mkBatch 0 1 [] ({[ p_resolve tiny ]} ∪ ∅)), fresh).
Proof.
  apply (empty_content_is_a_silent_failure (mkBatch 0 0 [] ∅) tiny fresh).
  - reflexivity.
  - vm_compute. reflexivity.
  - simpl. set_solver.
  - vm_compute. reflexivity.
Defined.

(** With a splitter that returns no chunk the file is listed as an error. *)
Lemma zero_chunks_listed :
  (ingest_directory (splitter := empty_splitter)
     (dir_of [blink]) true fresh).1
  = Ok (0, 1, ["blink.ino: No text chunks created from blink.ino"]).
Proof. by vm_compute. Qed.

Lemma ledger_upsert_idempotent_witness :
  exists rec,
    r_path rec = p_str blink /\
    ingested_files (add_knowledge blink fresh).2
    = <[p_name blink := rec]> (ingested_files fresh) /\
    (forall r2 t2,
       add_knowledge blink (add_knowledge blink fresh).2 = (r2, t2) ->
       ingested_files t2 = ingested_files (add_knowledge blink fresh).2 /\
       ingested_files t2 !! p_name blink = Some rec) /\
    (forall other msg' t3,
       p_name other = p_name blink ->
       add_knowledge other (add_knowledge blink fresh).2 = (Ok (true, msg'), t3) ->
       size (ingested_files t3)
       = size (ingested_files (add_knowledge blink fresh).2) /\
       exists rec', r_path rec' = p_str other /\
         ingested_files t3 !! p_name blink = Some rec').
Proof.
  apply (ledger_upsert_idempotent blink fresh (add_knowledge blink fresh).2
           "✅ Added 1 chunks from blink.ino (Arduino Code)").
  vm_compute. reflexivity.
Defined.

Lemma ingest_directory_not_found_witness :
  ingest_directory missing_dir true fresh
  = (Ok (0, 1, ["Directory not found: /does/not/exist"]), fresh).
Proof.
  apply (ingest_directory_not_found missing_dir true fresh).
  left. reflexivity.
Defined.

(** The start-up as [main.py] reaches it, inside a running event loop, on
    a knowledge base of three files and an empty ledger: nothing is
    ingested. *)
Lemma auto_ingest_threshold_witness :
  Agent._auto_ingest_on_startup (asyncio := inside_loop) kb fresh
  = (Ok (Agent.AutoIngestError
           "Cannot run the event loop while another loop is running"), fresh).
Proof.
  rewrite (auto_ingest_threshold (asyncio := inside_loop) kb fresh kb_stats).
  - vm_compute. reflexivity.
  - vm_compute. reflexivity.
Defined.

(** With no event loop running, the same start-up ingests. *)
Lemma startup_ingests_fresh :
  (Agent._auto_ingest_on_startup (asyncio := no_loop) kb fresh).1
  = Ok (Agent.Ingested 2 1 []).
Proof. by vm_compute. Qed.

End Runs.

(** * Further properties of the batch, the ledger and the scan *)

Section BatchFacts.

Context {VS : Type} {index : CorpusIndex VS} {splitter : TextSplitter}.

(** What the loop does with a path it has not seen: one call of
    [add_knowledge], then the counters. *)
Lemma ingest_one_fresh (b : Batch) (file_path : File) (t : Tools VS) :
  p_resolve file_path ∉ processed_files b ->
  ingest_one b file_path t =
    match add_knowledge file_path t with
    | (Ok (true, _), t') =>
        (Ok (mkBatch (S (success_count b)) (fail_count b) (errors b)
               ({[ p_resolve file_path ]} ∪ processed_files b)), t')
    | (Ok (false, message), t') =>
        (Ok (mkBatch (success_count b) (S (fail_count b))
               (errors b ++ kept_error (p_name file_path) message)%list
               ({[ p_resolve file_path ]} ∪ processed_files b)), t')
    | (Raise e, t') => (Raise e, t')
    end.
Proof.
  intros Hnew. unfold ingest_one.
  rewrite bool_decide_eq_false_2 by done. run_M.
  destruct (add_knowledge file_path t) as [[[[] msg] | e] t']; simpl; try done.
  unfold kept_error. destruct (negb _ && negb _); simpl; [done |].
  by rewrite app_nil_r.
Qed.

Lemma ingest_loop_app (l1 l2 : list File) (b : Batch) (t : Tools VS) :
  ingest_loop (l1 ++ l2) b t =
    match ingest_loop l1 b t with
    | (Ok b', t') => ingest_loop l2 b' t'
    | (Raise e, t') => (Raise e, t')
    end.
Proof.
  revert b t. induction l1 as [| f l1 IH]; intros b t; [done |].
  rewrite <- app_comm_cons, !ingest_loop_cons.
  destruct (ingest_one b f t) as [[b1 | e] t1]; [apply IH | done].
Qed.

(** A property of the counters and the instance that every step of the
    loop keeps is kept by the loop. *)
Lemma ingest_loop_invariant (P : Batch -> Tools VS -> Prop) (all_files : list File) :
  (forall b t f b' t',
     f ∈ all_files -> P b t -> ingest_one b f t = (Ok b', t') -> P b' t') ->
  forall b t b' t',
    P b t -> ingest_loop all_files b t = (Ok b', t') -> P b' t'.
Proof.
  induction all_files as [| f rest IH]; intros Hstep b t b' t' HP Hrun.
  - by injection Hrun as <- <-.
  - rewrite ingest_loop_cons in Hrun.
    destruct (ingest_one b f t) as [[b1 | e] t1] eqn:Hone; [| discriminate].
    eapply (IH (fun b0 t0 f0 b0' t0' Hin => Hstep b0 t0 f0 b0' t0'
                  (proj2 (elem_of_cons _ _ _) (or_intror Hin)))); [| done].
    eapply Hstep; [| done | done]. apply elem_of_cons. by left.
Qed.

(** The ledger after one call: untouched, or one upsert under the name of
    the file, the latter on success only. *)
Lemma add_knowledge_ledger (file_path : File) (t t' : Tools VS)
    (success : bool) (message : string) :
  add_knowledge file_path t = (Ok (success, message), t') ->
  if success then
    exists rec, ingested_files t' = <[p_name file_path := rec]> (ingested_files t)
  else ingested_files t' = ingested_files t.
Proof.
  intros Hrun. pose proof (add_knowledge_cases file_path t) as Hc.
  rewrite Hrun in Hc. inversion Hc; subst; simpl; eauto.
Qed.

(** On an existing directory with candidates, [ingest_directory] is its
    second loop started from empty counters. *)
Lemma ingest_directory_loop (dir_path : Dir) (recursive : bool) (t : Tools VS) :
  d_exists dir_path = true -> d_is_dir dir_path = true ->
  candidates dir_path recursive <> [] ->
  exists b t',
    ingest_loop (candidates dir_path recursive) (mkBatch 0 0 [] ∅) t = (Ok b, t')
    /\ ingest_directory dir_path recursive t
       = (Ok (success_count b, fail_count b, errors b), t').
Proof.
  intros Hex His Hne. unfold ingest_directory. rewrite Hex, His.
  cbn [negb orb].
  destruct (length (candidates dir_path recursive) =? 0) eqn:Hlen.
  { apply Nat.eqb_eq in Hlen. by apply nil_length_inv in Hlen. }
  unfold mbind, M_bind, mret, M_ret.
  destruct (ingest_loop_total (candidates dir_path recursive)
              (mkBatch 0 0 [] ∅) t) as (b & t' & Hloop & _).
  exists b, t'. by rewrite Hloop.
Qed.

(** The three shapes of a call of [ingest_directory]. *)
Lemma ingest_directory_shapes (dir_path : Dir) (recursive : bool) (t : Tools VS) :
  ingest_directory dir_path recursive t
  = (Ok (0, 1, ["Directory not found: " ++ d_str dir_path]), t)
  \/ ingest_directory dir_path recursive t
     = (Ok (0, 0, ["No supported files found in directory"]), t)
  \/ exists b t',
       ingest_loop (candidates dir_path recursive) (mkBatch 0 0 [] ∅) t = (Ok b, t')
       /\ ingest_directory dir_path recursive t
          = (Ok (success_count b, fail_count b, errors b), t').
Proof.
  destruct (d_exists dir_path) eqn:Hex;
    [| left; unfold ingest_directory; by rewrite Hex].
  destruct (d_is_dir dir_path) eqn:His;
    [| left; unfold ingest_directory; by rewrite Hex, His].
  destruct (candidates dir_path recursive) as [| f rest] eqn:Hcand.
  - right. left. unfold ingest_directory. by rewrite Hex, His, Hcand.
  - right. right. rewrite <- Hcand.
    apply ingest_directory_loop; try done. by rewrite Hcand.
Qed.

(** X1: on an existing directory in which no path is a file of an admitted
    type (directories, skip-set files, unsupported files), the batch returns
    no success, no failure and the note "No supported files found in
    directory", and does not touch the instance. *)
Theorem ingest_directory_no_candidates
    (dir_path : Dir) (recursive : bool) (t : Tools VS) :
  d_exists dir_path = true -> d_is_dir dir_path = true ->
  (forall p, p ∈ d_glob dir_path (if recursive then "**/*" else "*") ->
     p_is_file p = false \/ gate (PyStr.lower (p_suffix p)) <> GatePass) ->
  ingest_directory dir_path recursive t
  = (Ok (0, 0, ["No supported files found in directory"]), t).
Proof.
  intros Hex His Hnone. unfold ingest_directory. rewrite Hex, His. simpl.
  assert (candidates dir_path recursive = []) as ->; [| done].
  rewrite candidates_filter.
  induction (d_glob dir_path _) as [| p paths IH]; [done |].
  simpl. destruct (candidate p) eqn:Hc.
  - exfalso. destruct (Hnone p) as [Hfile | Hgate]; [apply elem_of_cons; by left | |].
    + unfold candidate in Hc. by rewrite Hfile in Hc.
    + apply Hgate. unfold candidate in Hc. unfold gate.
      apply andb_prop in Hc as [Hc Hsup]. apply andb_prop in Hc as [_ Hskip].
      rewrite Hsup. simpl. by destruct (in_skip _).
  - apply IH. intros q Hq. apply Hnone, elem_of_cons. by right.
Qed.

(** X2: a path listed again by the glob, or reaching an already listed file
    through another spelling (same resolved path), is not ingested a second
    time: the counts, the errors and the instance are those of the
    listing without it. *)
Theorem ingest_directory_skips_repeated
    (dir_path dir_path' : Dir) (recursive : bool) (t : Tools VS) (f g : File) :
  d_exists dir_path = true -> d_is_dir dir_path = true ->
  d_exists dir_path' = true -> d_is_dir dir_path' = true ->
  d_glob dir_path' (if recursive then "**/*" else "*")
  = (d_glob dir_path (if recursive then "**/*" else "*") ++ [f])%list ->
  g ∈ candidates dir_path recursive -> p_resolve f = p_resolve g ->
  ingest_directory dir_path' recursive t = ingest_directory dir_path recursive t.
Proof.
  intros Hex His Hex' His' Hglob Hg Hsame.
  assert (candidates dir_path recursive <> []) as Hne
    by (intros Hnil; rewrite Hnil in Hg; by apply elem_of_nil in Hg).
  assert (candidates dir_path' recursive
          = (candidates dir_path recursive ++ (if candidate f then [f] else []))%list)
    as Hcand.
  { rewrite !candidates_filter, Hglob, List.filter_app. simpl.
    by destruct (candidate f). }
  destruct (ingest_directory_loop dir_path recursive t Hex His Hne)
    as (b & t1 & Hloop & ->).
  destruct (ingest_directory_loop dir_path' recursive t Hex' His')
    as (b' & t1' & Hloop' & ->).
  { rewrite Hcand. intros Hnil. apply app_eq_nil in Hnil as [Hnil _]. done. }
  rewrite Hcand, ingest_loop_app, Hloop in Hloop'.
  destruct (candidate f).
  - rewrite ingest_loop_cons, ingest_one_seen in Hloop'.
    + simpl in Hloop'. by injection Hloop' as <- <-.
    + destruct (ingest_loop_total (candidates dir_path recursive)
                  (mkBatch 0 0 [] ∅) t) as (b2 & t2 & Hloop2 & Hproc & _).
      rewrite Hloop in Hloop2. injection Hloop2 as <- <-.
      rewrite Hproc, Hsame. apply elem_of_union. left.
      apply elem_of_list_to_set. by apply list_elem_of_fmap_2.
  - simpl in Hloop'. by injection Hloop' as <- <-.
Qed.

(** X3: the error list never has more entries than there are failures,
    except for the single note of a directory without candidates. *)
Theorem errors_bounded_by_failures
    (dir_path : Dir) (recursive : bool) (t : Tools VS) :
  exists success fail errs t',
    ingest_directory dir_path recursive t = (Ok (success, fail, errs), t')
    /\ (length errs <= fail
        \/ (success, fail, errs)
           = (0, 0, ["No supported files found in directory"])).
Proof.
  destruct (ingest_directory_shapes dir_path recursive t)
    as [-> | [-> | (b & t' & Hloop & ->)]].
  - eexists _, _, _, _. split; [done |]. left. simpl. lia.
  - eexists _, _, _, _. split; [done |]. by right.
  - eexists _, _, _, _. split; [done |]. left.
    apply (ingest_loop_invariant
             (fun b _ => length (errors b) <= fail_count b)
             (candidates dir_path recursive)) with (b := mkBatch 0 0 [] ∅) (t := t)
             (t' := t'); [| simpl; lia | done].
    clear. intros b t f b' t' _ Hle Hone.
    destruct (decide (p_resolve f ∈ processed_files b)) as [Hseen | Hnew].
    + rewrite ingest_one_seen in Hone by done. by injection Hone as <- <-.
    + rewrite ingest_one_fresh in Hone by done.
      destruct (add_knowledge f t) as [[[[] msg] | e] t1]; try discriminate;
        injection Hone as <- <-; simpl; [done |].
      rewrite length_app. unfold kept_error.
      destruct (negb _ && negb _); simpl; lia.
Qed.

(** X4: without a vector store the batch ingests nothing: no file is
    counted as a success and the instance (index and ledger) is left as it
    was. *)
Theorem no_vectorstore_ingests_nothing
    (dir_path : Dir) (recursive : bool) (t : Tools VS) :
  vectorstore t = None ->
  exists fail errs,
    ingest_directory dir_path recursive t = (Ok (0, fail, errs), t).
Proof.
  intros Hnone.
  destruct (ingest_directory_shapes dir_path recursive t)
    as [-> | [-> | (b & t' & Hloop & ->)]]; [eauto | eauto |].
  assert (t' = t /\ success_count b = 0) as [-> ->]; [| eauto].
  apply (ingest_loop_invariant
           (fun b t0 => t0 = t /\ success_count b = 0)
           (candidates dir_path recursive)) with (b := mkBatch 0 0 [] ∅) (t := t);
    [| done | done].
  intros b0 t0 f b' t0' _ [-> Hzero] Hone.
  destruct (decide (p_resolve f ∈ processed_files b0)) as [Hseen | Hnew].
  - rewrite ingest_one_seen in Hone by done. by injection Hone as <- <-.
  - rewrite ingest_one_fresh in Hone by done.
    pose proof (add_knowledge_cases f t) as Hc.
    destruct (add_knowledge f t) as [[[[] msg] | e] t1]; try discriminate;
      injection Hone as <- <-; simpl;
      inversion Hc; subst; try done; congruence.
Qed.

(** X5: a batch never removes a ledger entry and never touches the entry
    of a name that no candidate bears. *)
Theorem batch_keeps_other_entries
    (dir_path : Dir) (recursive : bool) (t t' : Tools VS)
    (success fail : nat) (errs : list string) :
  ingest_directory dir_path recursive t = (Ok (success, fail, errs), t') ->
  dom (ingested_files t) ⊆ dom (ingested_files t') /\
  (forall name, name ∉ p_name <$> candidates dir_path recursive ->
     ingested_files t' !! name = ingested_files t !! name).
Proof.
  intros Hrun.
  destruct (ingest_directory_shapes dir_path recursive t)
    as [Heq | [Heq | (b & t1 & Hloop & Heq)]];
    rewrite Heq in Hrun; injection Hrun as <- <- <- <-; [done | done |].
  apply (ingest_loop_invariant
           (fun _ t0 =>
              dom (ingested_files t) ⊆ dom (ingested_files t0) /\
              forall name, name ∉ p_name <$> candidates dir_path recursive ->
                ingested_files t0 !! name = ingested_files t !! name)
           (candidates dir_path recursive)) with (b := mkBatch 0 0 [] ∅) (t := t)
           (b' := b); [| done | done].
  intros b0 t0 f b' t0' Hin [Hdom Hframe] Hone.
  destruct (decide (p_resolve f ∈ processed_files b0)) as [Hseen | Hnew].
  - rewrite ingest_one_seen in Hone by done. by injection Hone as <- <-.
  - rewrite ingest_one_fresh in Hone by done.
    destruct (add_knowledge f t0) as [[[ok msg] | e] t2] eqn:Hadd;
      [| discriminate].
    pose proof (add_knowledge_ledger _ _ _ _ _ Hadd) as Hledger.
    destruct ok; injection Hone as <- <-.
    + destruct Hledger as [rec ->]. split.
      * rewrite dom_insert_L. set_solver.
      * intros name Hname. rewrite lookup_insert_ne; [by apply Hframe |].
        intros <-. apply Hname. by apply list_elem_of_fmap_2.
    + by rewrite Hledger.
Qed.

(** X6: the ledger grows by at most the number of successes of the batch
    (by less when two ingested files bear the same name or a name was
    already recorded). *)
Theorem ledger_growth_bounded
    (dir_path : Dir) (recursive : bool) (t t' : Tools VS)
    (success fail : nat) (errs : list string) :
  ingest_directory dir_path recursive t = (Ok (success, fail, errs), t') ->
  size (ingested_files t) <= size (ingested_files t')
  /\ size (ingested_files t') <= size (ingested_files t) + success.
Proof.
  intros Hrun.
  destruct (ingest_directory_shapes dir_path recursive t)
    as [Heq | [Heq | (b & t1 & Hloop & Heq)]];
    rewrite Heq in Hrun; injection Hrun as <- <- <- <-; [lia | lia |].
  apply (ingest_loop_invariant
           (fun b0 t0 =>
              size (ingested_files t) <= size (ingested_files t0)
              /\ size (ingested_files t0)
                 <= size (ingested_files t) + success_count b0)
           (candidates dir_path recursive)) with (b := mkBatch 0 0 [] ∅) (t := t);
    [| simpl; lia | done].
  intros b0 t0 f b' t0' _ [Hlo Hhi] Hone.
  destruct (decide (p_resolve f ∈ processed_files b0)) as [Hseen | Hnew].
  - rewrite ingest_one_seen in Hone by done. by injection Hone as <- <-.
  - rewrite ingest_one_fresh in Hone by done.
    destruct (add_knowledge f t0) as [[[ok msg] | e] t2] eqn:Hadd;
      [| discriminate].
    pose proof (add_knowledge_ledger _ _ _ _ _ Hadd) as Hledger.
    destruct ok; injection Hone as <- <-; cbn [success_count].
    + destruct Hledger as [rec ->]. rewrite map_size_insert.
      destruct (ingested_files t0 !! p_name f); unfold id; lia.
    + rewrite Hledger. lia.
Qed.

(** X7: an existing file with a skip-set extension is refused before
    anything is read, with the instance unchanged; the message depends on
    the order of the two tests: "Binary file skipped" when the extension is
    also a key of the supported table, "Unsupported file type" for the
    skip-only extensions. *)
Theorem add_knowledge_skip_extension_message (file_path : File) (t : Tools VS) :
  p_exists file_path = true ->
  PyStr.lower (p_suffix file_path) ∈ SKIP_EXTENSIONS ->
  add_knowledge file_path t
  = (Ok (false,
         (if bool_decide (PyStr.lower (p_suffix file_path) ∈ SHARED_EXTENSIONS)
          then "Binary file skipped: " else "Unsupported file type: ")
         ++ PyStr.lower (p_suffix file_path)), t).
Proof.
  intros Hex Hskip. unfold add_knowledge, try_except, add_knowledge_body.
  rewrite Hex. cbn [negb].
  destruct (PyStr.lower (p_suffix file_path)) eqn:E; rewrite <- E in *;
    cbn in Hskip; cases_of_elem Hskip;
    match goal with
    | H : _ = ?e |- _ =>
        rewrite H;
        eval_test (in_supported e); eval_test (in_skip e);
        eval_test (bool_decide (e ∈ SHARED_EXTENSIONS))
    end; reflexivity.
Qed.

Lemma length_take (n : nat) (s : string) :
  String.length (PyStr.take n s) <= n.
Proof.
  unfold PyStr.take. revert n. induction s as [| c s IH]; intros [| n]; simpl;
    try lia. specialize (IH n). lia.
Qed.

(** X8: when the splitter raises on the documents of a readable file, the
    call does not raise: it returns [False] with "Error: " followed by the
    first 100 characters of the exception text (so at most 107 characters),
    and the instance is unchanged. *)
Theorem add_knowledge_splitter_error
    (file_path : File) (t : Tools VS) (docs : list Document) (e : string) :
  p_exists file_path = true ->
  gate (PyStr.lower (p_suffix file_path)) = GatePass ->
  _load_file file_path = Some docs ->
  split_documents docs = Raise e ->
  add_knowledge file_path t = (Ok (false, "Error: " ++ PyStr.take 100 e), t)
  /\ String.length ("Error: " ++ PyStr.take 100 e) <= 107.
Proof.
  intros Hex Hgate Hload Hsplit. split.
  - unfold gate in Hgate.
    destruct (in_supported _) eqn:Hsup; simpl in Hgate; [| discriminate].
    destruct (in_skip _) eqn:Hskip; [discriminate |].
    unfold add_knowledge, try_except, add_knowledge_body.
    rewrite Hex, Hsup, Hskip, Hload. simpl.
    pose proof (_load_file_nonempty _ _ Hload).
    destruct docs as [| doc docs]; [done |].
    run_M. by rewrite Hsplit.
  - pose proof (length_take 100 e).
    change (String.length ("Error: " ++ PyStr.take 100 e))
      with (7 + String.length (PyStr.take 100 e)).
    lia.
Qed.

(** X9: provenance survives the trip through the index. A chunk stamped by
    [add_knowledge] for a file, when the index hands it back with a
    distance, becomes a hit that carries the file's name, its type label,
    its path and the length of the chunk; a document without these keys
    becomes a hit with the defaults "Unknown", "Unknown", "N/A", "N/A". *)
Theorem provenance_round_trip
    (file_path : File) (label : string) (doc : Document) (score : Q) :
  hit_of (stamp file_path label doc, score)
  = Hit (page_content doc) (MStr (p_name file_path)) (MStr label)
      (MStr (p_str file_path)) (PyFormat.percent2 (1 - score)%Q)
      (MInt (String.length (page_content doc)))
  /\ hit_of (mkDocument (page_content doc) ∅, score)
     = Hit (page_content doc) (MStr "Unknown") (MStr "Unknown") (MStr "N/A")
         (PyFormat.percent2 (1 - score)%Q) (MStr "N/A").
Proof.
  split; [| done]. unfold hit_of, stamp. simpl.
  rewrite lookup_insert_eq.
  rewrite (lookup_insert_ne _ "chunk_size" "file_type") by done.
  rewrite lookup_insert_eq.
  rewrite (lookup_insert_ne _ "chunk_size" "source_path") by done.
  rewrite (lookup_insert_ne _ "file_type" "source_path") by done.
  rewrite lookup_insert_eq.
  rewrite (lookup_insert_ne _ "chunk_size" "source_file") by done.
  rewrite (lookup_insert_ne _ "file_type" "source_file") by done.
  rewrite (lookup_insert_ne _ "source_path" "source_file") by done.
  by rewrite lookup_insert_eq.
Qed.

(** X10: after a successful [add_knowledge], [get_file_info] on the name of
    the file gives its record: the path, the type label of its extension,
    as many chunks as the splitter returned for its documents, the size
    [stat] reports; and [get_ingested_files] lists that record. *)
Theorem get_file_info_after_success
    (file_path : File) (t t' : Tools VS) (msg : string) :
  add_knowledge file_path t = (Ok (true, msg), t') ->
  exists docs chunks label size,
    _load_file file_path = Some docs /\
    split_documents docs = Ok chunks /\
    supported_label (PyStr.lower (p_suffix file_path)) = Ok label /\
    p_stat_size file_path = Ok size /\
    get_file_info t' (p_name file_path)
    = Some (mkIngestRecord (p_str file_path) label (length chunks) size) /\
    mkIngestRecord (p_str file_path) label (length chunks) size
    ∈ get_ingested_files t'.
Proof.
  intros Hrun.
  destruct (add_knowledge_success_inv _ _ _ _ Hrun)
    as (docs & chunks & label & size & vs
        & Hload & Hsplit & Hlabel & Hsize & Hvs & Hadd & ->).
  exists docs, chunks, label, size. repeat (split; [done |]).
  unfold get_file_info, get_ingested_files, record_of. simpl.
  rewrite length_fmap. split; [apply lookup_insert_eq |].
  apply list_elem_of_fmap. eexists (p_name file_path, _). split; [done |].
  apply elem_of_map_to_list, lookup_insert_eq.
Qed.

End BatchFacts.

Section ScanFacts.

Lemma count_sum_insert_fresh (by_type : gmap string (nat * Q))
    (file_type : string) (entry : nat * Q) :
  by_type !! file_type = None ->
  count_sum (<[file_type := entry]> by_type) = entry.1 + count_sum by_type.
Proof.
  intros Hfresh. unfold count_sum.
  rewrite map_fold_insert_L; [done | | done].
  intros. lia.
Qed.

Lemma count_sum_insert_present (by_type : gmap string (nat * Q))
    (file_type : string) (old entry : nat * Q) :
  by_type !! file_type = Some old ->
  count_sum (<[file_type := entry]> by_type) + old.1
  = entry.1 + count_sum by_type.
Proof.
  intros Hold.
  rewrite <- (insert_delete_eq by_type file_type entry).
  rewrite <- (insert_delete_id by_type file_type old Hold) at 2.
  rewrite !count_sum_insert_fresh by apply lookup_delete_eq. lia.
Qed.

(** One step of the scan that returns: the total and the per-type counts
    both move by one for a counted path and stay for any other. *)
Lemma scan_one_ok (stats stats' : ScanStats) (file_path : File) :
  scan_one stats file_path = Ok stats' ->
  total_files stats'
  = total_files stats + (if counted file_path then 1 else 0)
  /\ count_sum (files_by_type stats')
     = count_sum (files_by_type stats) + (if counted file_path then 1 else 0).
Proof.
  unfold scan_one, counted.
  destruct (p_is_file file_path); simpl;
    [| intros [= <-]; split; lia].
  destruct (negb (in_supported _) || (_ =? ".sb3")%string); simpl;
    [intros [= <-]; split; lia |].
  destruct (supported_label _) as [label |]; simpl; [| discriminate].
  destruct (p_stat_size file_path) as [size |]; simpl; [| discriminate].
  destruct (files_by_type stats !! label) as [[c q] |] eqn:Hl.
  - rewrite Hl. simpl. intros [= <-]. simpl. split; [lia |].
    pose proof (count_sum_insert_present (files_by_type stats) label (c, q)
                  (S c, (q + size_mb size)%Q) Hl) as Hsum.
    simpl in Hsum. lia.
  - rewrite lookup_insert_eq. simpl. intros [= <-]. simpl. split; [lia |].
    rewrite insert_insert_eq.
    rewrite (count_sum_insert_fresh _ _ _ Hl). simpl. lia.
Qed.

Lemma scan_loop_ok (paths : list File) (stats stats' : ScanStats) :
  scan_loop paths stats = Ok stats' ->
  total_files stats'
  = total_files stats + length (List.filter counted paths)
  /\ count_sum (files_by_type stats')
     = count_sum (files_by_type stats) + length (List.filter counted paths).
Proof.
  revert stats. induction paths as [| p paths IH]; intros stats; simpl.
  - intros [= <-]. split; lia.
  - destruct (scan_one stats p) as [stats1 |] eqn:Hone; simpl; [| discriminate].
    intros Hrest. destruct (IH _ Hrest) as [Ht Hc].
    destruct (scan_one_ok _ _ _ Hone) as [Ht1 Hc1].
    rewrite Ht, Hc, Ht1, Hc1. destruct (counted p); simpl; split; lia.
Qed.

Lemma scan_total_counts_aux
    (dir_path : Dir) (recursive : bool) (stats : ScanStats) :
  scan_directory dir_path recursive = Ok (ScanOk stats) ->
  total_files stats
  = length (List.filter counted
              (d_glob dir_path (if recursive then "**/*" else "*")))
  /\ count_sum (files_by_type stats) = total_files stats.
Proof.
  unfold scan_directory. destruct (d_exists dir_path); simpl; [| discriminate].
  destruct (scan_loop _ _) as [stats1 |] eqn:Hloop; simpl; [| discriminate].
  intros [= <-]. destruct (scan_loop_ok _ _ _ Hloop) as [Ht Hc].
  simpl in Ht, Hc. rewrite Ht, Hc. done.
Qed.

(** X11: when the scan returns statistics, [total_files] is the number of
    paths of the glob that are files with a key of the supported table other
    than [.sb3], and the [count] fields of [files_by_type] add up to it. *)
Theorem scan_total_is_counted_paths
    (dir_path : Dir) (recursive : bool) (stats : ScanStats) :
  scan_directory dir_path recursive = Ok (ScanOk stats) ->
  total_files stats
  = length (List.filter counted
              (d_glob dir_path (if recursive then "**/*" else "*")))
  /\ count_sum (files_by_type stats) = total_files stats.
Proof. apply scan_total_counts_aux. Qed.

Lemma candidate_counted (file_path : File) :
  candidate file_path = true -> counted file_path = true.
Proof.
  unfold candidate, counted. intros Hc.
  apply andb_prop in Hc as [Hc Hsup]. apply andb_prop in Hc as [Hfile Hskip].
  rewrite Hfile, Hsup. simpl.
  destruct (String.eqb_spec (PyStr.lower (p_suffix file_path)) ".sb3")
    as [Heq | Hne]; [| done].
  rewrite Heq in Hskip. by vm_compute in Hskip.
Qed.

Lemma filter_length_le (test1 test2 : File -> bool) (paths : list File) :
  (forall p, test1 p = true -> test2 p = true) ->
  length (List.filter test1 paths) <= length (List.filter test2 paths).
Proof.
  intros Himp. induction paths as [| p paths IH]; simpl; [lia |].
  destruct (test1 p) eqn:H1.
  - rewrite (Himp p H1). simpl. lia.
  - destruct (test2 p); simpl; lia.
Qed.

(** X12: the scan never reports fewer files than the batch would take: the
    candidates of [ingest_directory] are at most [total_files]. *)
Theorem scan_total_bounds_candidates
    (dir_path : Dir) (recursive : bool) (stats : ScanStats) :
  scan_directory dir_path recursive = Ok (ScanOk stats) ->
  length (candidates dir_path recursive) <= total_files stats.
Proof.
  intros Hscan.
  destruct (scan_total_counts_aux dir_path recursive stats Hscan) as [-> _].
  rewrite candidates_filter. apply filter_length_le, candidate_counted.
Qed.

End ScanFacts.

Section StartupFacts.

Context {VS : Type} {index : CorpusIndex VS} {splitter : TextSplitter}
        {asyncio : EventLoop}.

Lemma scan_loop_raises (paths : list File) (stats : ScanStats)
    (file_path : File) (e : string) :
  file_path ∈ paths -> counted file_path = true ->
  p_stat_size file_path = Raise e ->
  exists e', scan_loop paths stats = Raise e'.
Proof.
  intros Hin Hcounted Hstat. revert stats.
  induction paths as [| p paths IH]; intros stats;
    [by apply elem_of_nil in Hin |].
  simpl. destruct (scan_one stats p) as [stats1 | e1] eqn:Hone; simpl;
    [| eauto].
  apply elem_of_cons in Hin as [<- | Hin]; [| by apply IH].
  exfalso. unfold scan_one, counted in *.
  destruct (p_is_file file_path); simpl in *; [| discriminate].
  destruct (negb (in_supported _) || (_ =? ".sb3")%string); simpl in *;
    [discriminate |].
  rewrite Hstat in Hone.
  by destruct (supported_label _).
Qed.

(** X13: the scan does not isolate failures. If [stat] raises on one
    counted path, [scan_directory] raises and gives no statistics; the
    start-up then ends in its "Auto-ingest error" branch without ingesting
    and without touching the instance. *)
Theorem scan_failure_aborts_startup
    (kb : Dir) (t : Tools VS) (file_path : File) (e : string) :
  d_exists kb = true ->
  file_path ∈ d_glob kb "**/*" -> counted file_path = true ->
  p_stat_size file_path = Raise e ->
  exists e',
    scan_directory kb true = Raise e'
    /\ Agent._auto_ingest_on_startup kb t = (Ok (Agent.AutoIngestError e'), t).
Proof.
  intros Hex Hin Hcounted Hstat.
  destruct (scan_loop_raises _ (mkScanStats (d_str kb) ∅ 0 0%Q) _ _
              Hin Hcounted Hstat) as [e' Hloop].
  exists e'.
  assert (scan_directory kb true = Raise e') as Hscan.
  { unfold scan_directory. rewrite Hex. simpl. by rewrite Hloop. }
  split; [done |].
  unfold Agent._auto_ingest_on_startup, try_except, Agent._auto_ingest_body,
    Agent.scan_knowledge_base.
  run_M. by rewrite Hscan.
Qed.

(** X14: when the knowledge-base directory does not exist, the start-up
    reports the scan error "Directory not found: <path>", runs no ingestion
    and leaves the instance as it was. *)
Theorem startup_missing_knowledge_base (kb : Dir) (t : Tools VS) :
  d_exists kb = false ->
  Agent._auto_ingest_on_startup kb t
  = (Ok (Agent.ScanFailed ("Directory not found: " ++ d_str kb)), t).
Proof.
  intros Hex.
  unfold Agent._auto_ingest_on_startup, try_except, Agent._auto_ingest_body,
    Agent.scan_knowledge_base, scan_directory.
  rewrite Hex. reflexivity.
Qed.

(** X15: with an empty ledger, which is how the instance is built, the
    5% tolerance never lets the start-up take its "already ingested" branch
    on a knowledge base in which the scan counted at least one file: it
    goes on to the ingestion. With no event loop running the recursive
    ingestion runs; inside a running loop [run_until_complete] raises and
    the start-up ends in its "Auto-ingest error" branch, the instance
    unchanged. *)
Theorem startup_with_empty_ledger_ingests
    (kb : Dir) (t : Tools VS) (stats : ScanStats) :
  scan_directory kb true = Ok (ScanOk stats) ->
  total_files stats <> 0 ->
  ingested_files t = ∅ ->
  Agent._auto_ingest_on_startup kb t =
    if loop_running then
      (Ok (Agent.AutoIngestError
             "Cannot run the event loop while another loop is running"), t)
    else
      match ingest_directory kb true t with
      | (Ok (success, fail, errs), t') => (Ok (Agent.Ingested success fail errs), t')
      | (Raise e, t') => (Ok (Agent.AutoIngestError e), t')
      end.
Proof.
  intros Hscan Htotal Hempty.
  unfold Agent._auto_ingest_on_startup, try_except, Agent._auto_ingest_body,
    Agent.scan_knowledge_base, Agent.ingest_knowledge_base,
    Agent.run_until_complete.
  run_M. rewrite Hscan. simpl.
  destruct (total_files stats =? 0) eqn:Hzero;
    [by apply Nat.eqb_eq in Hzero |].
  rewrite length_get_ingested_files, Hempty, map_size_empty.
  rewrite tolerance_twentieth.
  destruct (_ <=? _)%Z eqn:Hle.
  - apply Z.leb_le in Hle.
    pose proof (Z.div_lt (Z.of_nat (total_files stats)) 20). lia.
  - destruct loop_running; [done |].
    by destruct (ingest_directory kb true t) as [[[[s f] errs] | e] t'].
Qed.

(** X16: the report of [ingest_knowledge_base] at the two edges. A missing
    directory is a failed report, "Ingested 0 files (1 failed)"; an existing
    directory without any candidate is a successful report, "Ingested 0
    files", that still carries the note in [errors]. *)
Theorem ingest_report_edges (kb : Dir) (t : Tools VS) :
  (d_exists kb = false \/ d_is_dir kb = false ->
   ingest_knowledge_base_report kb t
   = (Ok (mkIngestReport false 0 1 ["Directory not found: " ++ d_str kb]
            "✅ Ingested 0 files (1 failed)"), t)) /\
  (d_exists kb = true -> d_is_dir kb = true -> candidates kb true = [] ->
   ingest_knowledge_base_report kb t
   = (Ok (mkIngestReport true 0 0 ["No supported files found in directory"]
            "✅ Ingested 0 files"), t)).
Proof.
  split.
  - intros Hmissing. unfold ingest_knowledge_base_report, ingest_directory.
    assert (negb (d_exists kb) || negb (d_is_dir kb) = true) as ->.
    { destruct Hmissing as [-> | ->]; [done | by rewrite orb_true_r]. }
    reflexivity.
  - intros Hex His Hnone. unfold ingest_knowledge_base_report, ingest_directory.
    rewrite Hex, His, Hnone. reflexivity.
Qed.

(** X17: the report says success exactly when no file failed, and its
    counts are those of the batch; so it is a success if and only if every
    distinct candidate was ingested. *)
Theorem ingest_report_success (kb : Dir) (t : Tools VS) :
  exists report t',
    ingest_knowledge_base_report kb t = (Ok report, t')
    /\ ingest_directory kb true t
       = (Ok (report_success_count report, report_fail_count report,
              report_errors report), t')
    /\ (report_success report = true <-> report_fail_count report = 0)
    /\ (d_exists kb = true -> d_is_dir kb = true -> candidates kb true <> [] ->
        (report_success report = true
         <-> report_success_count report
             = size (list_to_set (p_resolve <$> candidates kb true)
                     : gset string))).
Proof.
  assert (exists s f errs t',
            ingest_directory kb true t = (Ok (s, f, errs), t'))
    as (s & f & errs & t' & Heq).
  { destruct (ingest_directory_shapes kb true t)
      as [-> | [-> | (b & t' & _ & ->)]]; eauto 10. }
  unfold ingest_knowledge_base_report. run_M. rewrite Heq. simpl.
  eexists _, _. split; [done |]. simpl.
  split; [done |]. split; [apply Nat.eqb_eq |].
  intros Hex His Hne.
  destruct (ingest_directory_loop kb true t Hex His Hne)
    as (b & t1 & Hloop & Heq2).
  rewrite Heq in Heq2. injection Heq2 as -> -> -> ->.
  destruct (ingest_loop_total (candidates kb true) (mkBatch 0 0 [] ∅) t)
    as (b1 & t2 & Hl & _ & Hsum).
  rewrite Hloop in Hl. injection Hl as <- <-. simpl in Hsum.
  replace (list_to_set (p_resolve <$> candidates kb true) ∖ ∅)
    with (list_to_set (p_resolve <$> candidates kb true) : gset string)
    in Hsum by set_solver.
  rewrite <- Hsum. rewrite Nat.eqb_eq. lia.
Qed.

End StartupFacts.

(** * Properties of [extract_code_from_response] *)

Section ExtractFacts.

Import Helpers.

Lemma startswith_app (p r : string) : PyStr.startswith p (p ++ r) = true.
Proof.
  induction p as [| c p IH]; simpl; [by destruct r |].
  by rewrite Ascii.eqb_refl.
Qed.

Lemma drop_app (p r : string) : drop (String.length p) (p ++ r) = r.
Proof. induction p as [| c p IH]; simpl; [by destruct r | done]. Qed.

Lemma no_backquote_app (a b : string) :
  no_backquote (a ++ b) = no_backquote a && no_backquote b.
Proof.
  induction a as [| c a IH]; simpl; [done |].
  rewrite IH. by rewrite andb_assoc.
Qed.

Lemma startswith_head_ne (a c : ascii) (p s : string) :
  Ascii.eqb a c = false -> PyStr.startswith (String a p) (String c s) = false.
Proof. intros Hne. simpl. by rewrite Hne. Qed.

(** No pattern matches at a character that is not a backquote. *)
Lemma match_at_other (langs : list string) (c : ascii) (s : string) :
  Ascii.eqb c "`"%char = false -> match_at langs (String c s) = None.
Proof.
  intros Hc. induction langs as [| lang langs IH]; [done |].
  cbn [match_at].
  change ("```" ++ lang ++ nl) with (String "`"%char ("``" ++ lang ++ nl)).
  rewrite startswith_head_ne by (by rewrite Ascii.eqb_sym). exact IH.
Qed.

Lemma match_at_empty (langs : list string) : match_at langs "" = None.
Proof. induction langs as [| lang langs IH]; [done | exact IH]. Qed.

(** The search walks over a text without backquotes. *)
Lemma first_match_skip (langs : list string) (pre rest : string) :
  no_backquote pre = true ->
  first_match langs (pre ++ rest) = first_match langs rest.
Proof.
  induction pre as [| c pre IH]; [done |].
  change (String c pre ++ rest) with (String c (pre ++ rest)).
  cbn [no_backquote]. intros [Hc Hpre]%andb_prop.
  apply negb_true_iff in Hc.
  cbn [first_match]. rewrite (match_at_other _ _ _ Hc). by apply IH.
Qed.

Lemma first_match_none (langs : list string) (s : string) :
  no_backquote s = true -> first_match langs s = None.
Proof.
  induction s as [| c s IH].
  - intros _. cbn [first_match]. by rewrite match_at_empty.
  - cbn [no_backquote]. intros [Hc Hs]%andb_prop.
    apply negb_true_iff in Hc.
    cbn [first_match]. rewrite (match_at_other _ _ _ Hc). by apply IH.
Qed.

(** The lazy group stops at the first closing fence. *)
Lemma partition_fence (code post : string) :
  no_backquote code = true ->
  partition "```" (code ++ "```" ++ post) = Some (code, post).
Proof.
  induction code as [| c code IH]; [done |].
  change (String c code ++ "```" ++ post)
    with (String c (code ++ "```" ++ post)).
  cbn [no_backquote]. intros [Hc Hcode]%andb_prop.
  apply negb_true_iff in Hc.
  cbn [partition].
  change "```" with (String "`"%char "``") at 1.
  rewrite startswith_head_ne by (by rewrite Ascii.eqb_sym).
  by rewrite (IH Hcode).
Qed.

Lemma first_match_here (langs : list string) (s code : string) :
  match_at langs s = Some code -> first_match langs s = Some code.
Proof. intros Hm. destruct s; cbn [first_match]; by rewrite Hm. Qed.

(** At an opening fence of the first pattern, the group is what the
    lazy search for a closing fence gives. *)
Lemma match_at_cpp_fence (lang rest : string) :
  lang ∈ [ "cpp"; "c++"; "arduino"; "ino" ] ->
  match_at [ "cpp"; "c++"; "arduino"; "ino" ] ("```" ++ lang ++ nl ++ rest)
  = fst <$> partition "```" rest.
Proof.
  intros Hlang. cases_of_elem Hlang;
    cbv [match_at String.append PyStr.startswith Ascii.eqb Bool.eqb nl
         String.length drop];
    by destruct (fst <$> partition "```" rest).
Qed.

(** X18: a C++ fence gives its content back. When the text before the
    first fence of the family cpp, c++, arduino, ino has no backquote and
    the fenced code has none either, the extraction returns the code,
    stripped, whatever follows the closing fence. *)
Theorem fenced_code_round_trip (lang pre code post : string) :
  lang ∈ [ "cpp"; "c++"; "arduino"; "ino" ] ->
  no_backquote pre = true -> no_backquote code = true ->
  extract_code_from_response
    (pre ++ "```" ++ lang ++ nl ++ code ++ "```" ++ post)
  = PyStr.strip code.
Proof.
  intros Hlang Hpre Hcode. unfold extract_code_from_response, code_patterns.
  cbn [first_fenced]. rewrite (first_match_skip _ _ _ Hpre).
  assert (first_match [ "cpp"; "c++"; "arduino"; "ino" ]
            ("```" ++ lang ++ nl ++ code ++ "```" ++ post) = Some code) as ->;
    [| done].
  apply first_match_here.
  rewrite (match_at_cpp_fence lang (code ++ "```" ++ post) Hlang).
  by rewrite (partition_fence _ _ Hcode).
Qed.

Lemma scan_lines_no_keyword (lines : list string) :
  Forall (fun line => has_keyword line = false) lines ->
  scan_lines lines false [] = [].
Proof.
  induction 1 as [| line lines Hline _ IH]; [done |].
  cbn [scan_lines]. rewrite Hline. simpl.
  by destruct (is_section_header line).
Qed.

(** X19: nothing to extract gives the empty string: a response without a
    backquote in which no line contains one of the code keywords is
    extracted to [""]. *)
Theorem no_code_extracts_nothing (response : string) :
  no_backquote response = true ->
  Forall (fun line => has_keyword line = false) (split_lines response) ->
  extract_code_from_response response = "".
Proof.
  intros Hplain Hlines. unfold extract_code_from_response, code_patterns.
  cbn [first_fenced]. rewrite !first_match_none by done.
  by rewrite scan_lines_no_keyword.
Qed.

Lemma split_lines_nonempty (s : string) : split_lines s <> [].
Proof.
  induction s as [| c s IH]; [done |]. simpl.
  destruct (Ascii.eqb c "010"); [done |].
  by destruct (split_lines s).
Qed.

Lemma split_lines_app (a b : string) :
  split_lines (a ++ nl ++ b) = (split_lines a ++ split_lines b)%list.
Proof.
  induction a as [| c a IH]; [done |].
  change (String c a ++ nl ++ b) with (String c (a ++ nl ++ b)).
  cbn [split_lines]. rewrite IH.
  destruct (Ascii.eqb c "010"); [done |].
  pose proof (split_lines_nonempty a).
  by destruct (split_lines a).
Qed.

Lemma split_lines_single (s : string) :
  single_line s = true -> split_lines s = [s].
Proof.
  induction s as [| c s IH]; [done |].
  cbn [single_line split_lines]. intros [Hc Hs]%andb_prop.
  apply negb_true_iff in Hc. rewrite Hc, (IH Hs). done.
Qed.

Lemma scan_lines_stops (before after : list string) (header : string)
    (in_code : bool) (code_lines : list string) :
  is_section_header header = true ->
  scan_lines (before ++ header :: after) in_code code_lines
  = scan_lines (before ++ [header]) in_code code_lines.
Proof.
  intros Hheader. revert in_code code_lines.
  induction before as [| line before IH]; intros in_code code_lines.
  - simpl. by rewrite Hheader.
  - rewrite <- !app_comm_cons. cbn [scan_lines].
    destruct (is_section_header line); [done | apply IH].
Qed.

(** X20: a section header ends the fall-back extraction. In a response
    without backquotes, whatever follows the first line that starts with
    "explanation:", "components:" or "setup:" (in any letter case) is never
    part of the extracted code, even when it is code. *)
Theorem section_header_ends_extraction (above header below : string) :
  no_backquote above = true -> no_backquote header = true ->
  no_backquote below = true ->
  single_line header = true -> is_section_header header = true ->
  extract_code_from_response (above ++ nl ++ header ++ nl ++ below)
  = extract_code_from_response (above ++ nl ++ header).
Proof.
  intros Ha Hh Hb Hline Hheader.
  unfold extract_code_from_response, code_patterns. cbn [first_fenced].
  assert (no_backquote nl = true) as Hnl by done.
  rewrite !first_match_none
    by (rewrite ?no_backquote_app, ?Ha, ?Hh, ?Hb, ?Hnl; done).
  rewrite !split_lines_app, (split_lines_single _ Hline).
  f_equal. f_equal.
  change ([header] ++ split_lines below)%list with (header :: split_lines below).
  rewrite (scan_lines_stops (split_lines above) (split_lines below) header
             false [] Hheader).
  done.
Qed.

Lemma startswith_prefix (a b s : string) :
  PyStr.startswith (a ++ b) s = true -> PyStr.startswith a s = true.
Proof.
  revert s. induction a as [| c a IH]; intros s; [by destruct s |].
  change (String c a ++ b) with (String c (a ++ b)).
  destruct s as [| d s]; simpl; [done |].
  destruct (Ascii.eqb c d); [apply IH | done].
Qed.

(** Every pattern starts with three backquotes. *)
Lemma match_at_needs_fence (langs : list string) (s : string) :
  PyStr.startswith "```" s = false -> match_at langs s = None.
Proof.
  intros Hfence. induction langs as [| lang langs IH]; [done |].
  cbn [match_at].
  destruct (PyStr.startswith ("```" ++ lang ++ nl) s) eqn:Hopen; [| exact IH].
  apply startswith_prefix in Hopen. congruence.
Qed.

Lemma no_backquote_head (s : string) :
  no_backquote s = true -> PyStr.startswith "`" s = false.
Proof.
  destruct s as [| c s]; [done |]. cbn [no_backquote].
  intros [Hc _]%andb_prop. apply negb_true_iff in Hc.
  apply startswith_head_ne. by rewrite Ascii.eqb_sym.
Qed.

Lemma no_backquote_drop (n : nat) (s : string) :
  no_backquote s = true -> no_backquote (drop n s) = true.
Proof.
  revert s. induction n as [| n IH]; intros [| c s]; simpl; try done.
  intros [_ Hs]%andb_prop. by apply IH.
Qed.

Lemma partition_none (s : string) :
  no_backquote s = true -> partition "```" s = None.
Proof.
  induction s as [| c s IH]; [done |].
  cbn [no_backquote]. intros [Hc Hs]%andb_prop. apply negb_true_iff in Hc.
  cbn [partition]. change "```" with (String "`"%char "``") at 1.
  rewrite startswith_head_ne by (by rewrite Ascii.eqb_sym).
  by rewrite (IH Hs).
Qed.

(** An opening fence that is never closed matches no pattern. *)
Lemma match_at_unclosed (langs : list string) (post : string) :
  no_backquote post = true -> match_at langs ("```" ++ post) = None.
Proof.
  intros Hpost. induction langs as [| lang langs IH]; [done |].
  cbn [match_at].
  destruct (PyStr.startswith _ _); [| exact IH].
  change (drop (String.length ("```" ++ lang ++ nl)) ("```" ++ post))
    with (drop (String.length (lang ++ nl)) post).
  by rewrite (partition_none _ (no_backquote_drop _ _ Hpost)).
Qed.

(** The search steps over a fence at which nothing matches. *)
Lemma first_match_over_fence (langs : list string) (s : string) :
  match_at langs ("```" ++ s) = None ->
  PyStr.startswith "`" s = false ->
  first_match langs ("```" ++ s) = first_match langs s.
Proof.
  intros Hhere Hnext.
  change ("```" ++ s) with (String "`"%char (String "`"%char (String "`"%char s)))
    in *.
  cbn [first_match]. rewrite Hhere.
  rewrite (match_at_needs_fence langs (String "`"%char (String "`"%char s)))
    by exact Hnext.
  rewrite (match_at_needs_fence langs (String "`"%char s)); [done |].
  destruct (PyStr.startswith "```" (String "`"%char s)) eqn:Htwo; [| done].
  change (PyStr.startswith ("`" ++ "`") s = true) in Htwo.
  apply startswith_prefix in Htwo. congruence.
Qed.

Lemma first_match_unclosed (langs : list string) (post : string) :
  no_backquote post = true -> first_match langs ("```" ++ post) = None.
Proof.
  intros Hpost.
  rewrite first_match_over_fence;
    [by apply first_match_none | by apply match_at_unclosed
    | by apply no_backquote_head].
Qed.

(** X21: a Python fence or a fence without a language gives its content
    back when no other backquote is around: with text before, code and
    text after all free of backquotes, the extraction returns the code,
    stripped. *)
Theorem plain_fence_round_trip (lang pre code post : string) :
  lang ∈ [ "python"; "" ] ->
  no_backquote pre = true -> no_backquote code = true ->
  no_backquote post = true ->
  extract_code_from_response
    (pre ++ "```" ++ lang ++ nl ++ code ++ "```" ++ post)
  = PyStr.strip code.
Proof.
  intros Hlang Hpre Hcode Hpost.
  unfold extract_code_from_response, code_patterns. cbn [first_fenced].
  assert (forall langs,
            first_match langs (code ++ "```" ++ post) = None) as Htail.
  { intros langs. rewrite (first_match_skip _ _ _ Hcode).
    by apply first_match_unclosed. }
  cases_of_elem Hlang.
  - (* python: the first pattern finds nothing, the second the code *)
    rewrite !(first_match_skip _ _ _ Hpre).
    rewrite (first_match_over_fence [ "cpp"; "c++"; "arduino"; "ino" ]);
      [| done | done].
    rewrite (first_match_skip _ ("python" ++ nl) _ eq_refl
             : first_match _ ("python" ++ nl ++ code ++ "```" ++ post) = _).
    rewrite Htail.
    rewrite (first_match_here [ "python" ] _ code); [done |].
    change (match_at ["python"] ("```" ++ "python" ++ nl ++ code ++ "```" ++ post))
      with (match fst <$> partition "```" (code ++ "```" ++ post) with
            | Some c => Some c | None => None end).
    by rewrite (partition_fence _ _ Hcode).
  - (* no language: only the third pattern matches *)
    rewrite !(first_match_skip _ _ _ Hpre).
    rewrite (first_match_over_fence [ "cpp"; "c++"; "arduino"; "ino" ]);
      [| done | done].
    rewrite (first_match_over_fence [ "python" ]); [| done | done].
    rewrite !(first_match_skip _ nl _ eq_refl
              : first_match _ ("" ++ nl ++ code ++ "```" ++ post) = _).
    rewrite !Htail.
    rewrite (first_match_here [ "" ] _ code); [done |].
    change (match_at [""] ("```" ++ "" ++ nl ++ code ++ "```" ++ post))
      with (match fst <$> partition "```" (code ++ "```" ++ post) with
            | Some c => Some c | None => None end).
    by rewrite (partition_fence _ _ Hcode).
Qed.

End ExtractFacts.

(** * Properties of [code_validator_tool] *)

Section ValidatorFacts.

Import Validator.

Variable compile : string -> CompileOutcome.

(** X22: a platform that [validate_platform] rejects is never given an
    error by the validator: whatever the code, the validation succeeds, with
    the long-line warnings as its only content. *)
Theorem unknown_platform_validates (code platform : string) :
  Helpers.validate_platform platform = false ->
  code_validator_tool compile code platform
  = Validated (mkValidation true
                 (long_lines 1 (Helpers.split_lines code)) [] []).
Proof.
  unfold Helpers.validate_platform, Helpers.valid_platforms.
  intros Hreject. apply bool_decide_eq_false in Hreject.
  unfold code_validator_tool.
  rewrite bool_decide_eq_false_2.
  - destruct (String.eqb_spec (PyStr.lower platform) "raspberry_pi")
      as [Heq | _]; [| done].
    exfalso. apply Hreject. rewrite Heq. by_evaluation.
  - intros Hin. apply Hreject. cases_of_elem Hin;
      match goal with H : _ = _ |- _ => rewrite H end; by_evaluation.
Qed.

(** X23: for Arduino and ESP32, in any letter case, the validation
    succeeds exactly when the code contains "setup()" and "loop()" and,
    if it contains "WiFi.", also "#include <WiFi.h>"; success is the same
    as an empty error list, and this branch makes no suggestion. *)
Theorem arduino_validation_success (code platform : string) :
  PyStr.lower platform ∈ [ "arduino"; "esp32" ] ->
  exists v,
    code_validator_tool compile code platform = Validated v
    /\ (v_success v = true <-> v_errors v = [])
    /\ (v_success v = true <->
        PyStr.contains "setup()" code = true
        /\ PyStr.contains "loop()" code = true
        /\ (PyStr.contains "WiFi." code = true ->
            PyStr.contains "#include <WiFi.h>" code = true))
    /\ v_suggestions v = [].
Proof.
  intros Hplatform. unfold code_validator_tool.
  rewrite bool_decide_eq_true_2 by done.
  assert (String.eqb (PyStr.lower platform) "library" = false) as ->.
  { cases_of_elem Hplatform;
      match goal with H : _ = _ |- _ => by rewrite H end. }
  eexists. split; [done |]. cbn [v_success v_errors v_suggestions].
  unfold when.
  destruct (PyStr.contains "setup()" code),
           (PyStr.contains "loop()" code),
           (PyStr.contains "WiFi." code),
           (PyStr.contains "#include <WiFi.h>" code); simpl; naive_solver.
Qed.

End ValidatorFacts.

(** ** Concrete runs of the further properties *)

Module MoreRuns.

Import Demo Samples.

#[local] Existing Instance store_index.
#[local] Existing Instance whole_splitter.
#[local] Existing Instance inside_loop.

Lemma ingest_directory_no_candidates_witness :
  ingest_directory images_dir true fresh
  = (Ok (0, 0, ["No supported files found in directory"]), fresh).
Proof.
  apply (ingest_directory_no_candidates images_dir true fresh).
  - reflexivity.
  - reflexivity.
  - intros p Hp. simpl in Hp. cases_of_elem Hp;
      first [ by left | right; vm_compute; discriminate ].
Defined.

Lemma ingest_directory_skips_repeated_witness :
  ingest_directory two_sources_and_link true fresh
  = ingest_directory two_sources true fresh.
Proof.
  apply (ingest_directory_skips_repeated two_sources two_sources_and_link
           true fresh blink_link blink).
  - reflexivity.
  - reflexivity.
  - reflexivity.
  - reflexivity.
  - reflexivity.
  - assert (candidates two_sources true = [blink; notes]) as -> by reflexivity.
    apply list_elem_of_here.
  - reflexivity.
Defined.

Lemma no_vectorstore_ingests_nothing_witness :
  exists fail errs,
    ingest_directory one_locked true no_store = (Ok (0, fail, errs), no_store).
Proof.
  apply (no_vectorstore_ingests_nothing one_locked true no_store).
  reflexivity.
Defined.

Lemma batch_keeps_other_entries_witness :
  dom (ingested_files fresh)
  ⊆ dom (ingested_files (ingest_directory one_locked true fresh).2) /\
  (forall name, name ∉ p_name <$> candidates one_locked true ->
     ingested_files (ingest_directory one_locked true fresh).2 !! name
     = ingested_files fresh !! name).
Proof.
  apply (batch_keeps_other_entries one_locked true fresh _ 2 1 []).
  vm_compute. reflexivity.
Defined.

Lemma ledger_growth_bounded_witness :
  size (ingested_files fresh)
  <= size (ingested_files (ingest_directory two_sources_and_link true fresh).2)
  /\ size (ingested_files (ingest_directory two_sources_and_link true fresh).2)
     <= size (ingested_files fresh) + 2.
Proof.
  apply (ledger_growth_bounded two_sources_and_link true fresh _ 2 0 []).
  vm_compute. reflexivity.
Defined.

Lemma add_knowledge_skip_extension_message_witness :
  add_knowledge pack fresh
  = (Ok (false,
         (if bool_decide (PyStr.lower (p_suffix pack) ∈ SHARED_EXTENSIONS)
          then "Binary file skipped: " else "Unsupported file type: ")
         ++ PyStr.lower (p_suffix pack)), fresh).
Proof.
  apply (add_knowledge_skip_extension_message pack fresh).
  - reflexivity.
  - by_evaluation.
Defined.

Lemma add_knowledge_splitter_error_witness :
  add_knowledge (splitter := raising_splitter) blink fresh
  = (Ok (false, "Error: " ++ PyStr.take 100 "chunk overlap larger than chunk size"),
     fresh)
  /\ String.length
       ("Error: " ++ PyStr.take 100 "chunk overlap larger than chunk size")
     <= 107.
Proof.
  apply (add_knowledge_splitter_error (splitter := raising_splitter) blink fresh
           [mkDocument "void setup() { pinMode(13, OUTPUT); }"
              {[ "source" := MStr "kb/blink.ino" ]}]).
  - reflexivity.
  - vm_compute. reflexivity.
  - vm_compute. reflexivity.
  - reflexivity.
Defined.

Lemma get_file_info_after_success_witness :
  exists docs chunks label size,
    _load_file blink = Some docs /\
    split_documents docs = Ok chunks /\
    supported_label (PyStr.lower (p_suffix blink)) = Ok label /\
    p_stat_size blink = Ok size /\
    get_file_info (add_knowledge blink fresh).2 (p_name blink)
    = Some (mkIngestRecord (p_str blink) label (length chunks) size) /\
    mkIngestRecord (p_str blink) label (length chunks) size
    ∈ get_ingested_files (add_knowledge blink fresh).2.
Proof.
  apply (get_file_info_after_success blink fresh _
           "✅ Added 1 chunks from blink.ino (Arduino Code)").
  vm_compute. reflexivity.
Defined.

Lemma scan_total_is_counted_paths_witness :
  total_files mixed_stats
  = length (List.filter counted (d_glob mixed_dir "**/*"))
  /\ count_sum (files_by_type mixed_stats) = total_files mixed_stats.
Proof.
  apply (scan_total_is_counted_paths mixed_dir true mixed_stats).
  vm_compute. reflexivity.
Defined.

Lemma scan_total_bounds_candidates_witness :
  length (candidates mixed_dir true) <= total_files mixed_stats.
Proof.
  apply (scan_total_bounds_candidates mixed_dir true mixed_stats).
  vm_compute. reflexivity.
Defined.

Lemma scan_failure_aborts_startup_witness :
  exists e',
    scan_directory with_vanished true = Raise e'
    /\ Agent._auto_ingest_on_startup with_vanished fresh
       = (Ok (Agent.AutoIngestError e'), fresh).
Proof.
  apply (scan_failure_aborts_startup with_vanished fresh vanished
           "[Errno 2] No such file or directory: 'kb/gone.py'").
  - reflexivity.
  - apply list_elem_of_further, list_elem_of_here.
  - vm_compute. reflexivity.
  - reflexivity.
Defined.

Lemma startup_missing_knowledge_base_witness :
  Agent._auto_ingest_on_startup missing_dir fresh
  = (Ok (Agent.ScanFailed ("Directory not found: " ++ d_str missing_dir)), fresh).
Proof.
  apply (startup_missing_knowledge_base missing_dir fresh). reflexivity.
Defined.

Lemma startup_with_empty_ledger_ingests_witness :
  Agent._auto_ingest_on_startup (asyncio := no_loop) mixed_dir fresh =
    match ingest_directory mixed_dir true fresh with
    | (Ok (success, fail, errs), t') => (Ok (Agent.Ingested success fail errs), t')
    | (Raise e, t') => (Ok (Agent.AutoIngestError e), t')
    end.
Proof.
  apply (startup_with_empty_ledger_ingests (asyncio := no_loop)
           mixed_dir fresh mixed_stats).
  - vm_compute. reflexivity.
  - vm_compute. discriminate.
  - reflexivity.
Defined.

Lemma ingest_report_edges_witness :
  ingest_knowledge_base_report missing_dir fresh
  = (Ok (mkIngestReport false 0 1 ["Directory not found: " ++ d_str missing_dir]
           "✅ Ingested 0 files (1 failed)"), fresh)
  /\ ingest_knowledge_base_report images_dir fresh
     = (Ok (mkIngestReport true 0 0 ["No supported files found in directory"]
              "✅ Ingested 0 files"), fresh).
Proof.
  split.
  - apply (proj1 (ingest_report_edges missing_dir fresh)). left. reflexivity.
  - apply (proj2 (ingest_report_edges images_dir fresh)); reflexivity.
Defined.

Lemma ingest_report_success_witness :
  exists report t',
    ingest_knowledge_base_report one_locked fresh = (Ok report, t')
    /\ ingest_directory one_locked true fresh
       = (Ok (report_success_count report, report_fail_count report,
              report_errors report), t')
    /\ (report_success report = true <-> report_fail_count report = 0)
    /\ (d_exists one_locked = true -> d_is_dir one_locked = true ->
        candidates one_locked true <> [] ->
        (report_success report = true
         <-> report_success_count report
             = size (list_to_set (p_resolve <$> candidates one_locked true)
                     : gset string))).
Proof. apply (ingest_report_success one_locked fresh). Defined.

Lemma fenced_code_round_trip_witness :
  Helpers.extract_code_from_response
    (("Here is the sketch:" ++ Helpers.nl)
     ++ "```" ++ "arduino" ++ Helpers.nl ++ sketch ++ "```"
     ++ " Upload it with ``` the IDE.")
  = PyStr.strip sketch.
Proof.
  apply (fenced_code_round_trip "arduino" ("Here is the sketch:" ++ Helpers.nl)
           sketch " Upload it with ``` the IDE.").
  - by_evaluation.
  - vm_compute. reflexivity.
  - vm_compute. reflexivity.
Defined.

Lemma plain_fence_round_trip_witness :
  Helpers.extract_code_from_response
    ("Run this:" ++ "```" ++ "python" ++ Helpers.nl ++ "print(42)" ++ "```"
     ++ " Done.")
  = PyStr.strip "print(42)".
Proof.
  apply (plain_fence_round_trip "python" "Run this:" "print(42)" " Done.").
  - by_evaluation.
  - vm_compute. reflexivity.
  - vm_compute. reflexivity.
  - vm_compute. reflexivity.
Defined.

Lemma no_code_extracts_nothing_witness :
  Helpers.extract_code_from_response
    ("Use a 220 ohm resistor." ++ Helpers.nl ++ "Setup: pin 13 to the LED.")
  = "".
Proof.
  apply (no_code_extracts_nothing
           ("Use a 220 ohm resistor." ++ Helpers.nl ++ "Setup: pin 13 to the LED.")).
  - vm_compute. reflexivity.
  - vm_compute. repeat constructor.
Defined.

Lemma section_header_ends_extraction_witness :
  Helpers.extract_code_from_response
    ("import time" ++ Helpers.nl ++ "Explanation: sleeps" ++ Helpers.nl
     ++ "import os")
  = Helpers.extract_code_from_response
      ("import time" ++ Helpers.nl ++ "Explanation: sleeps").
Proof.
  apply (section_header_ends_extraction "import time" "Explanation: sleeps"
           "import os"); vm_compute; reflexivity.
Defined.

Lemma unknown_platform_validates_witness :
  Validator.code_validator_tool lenient "int main() { return 0; }" "stm32"
  = Validator.Validated
      (Validator.mkValidation true
         (Validator.long_lines 1 (Helpers.split_lines "int main() { return 0; }"))
         [] []).
Proof.
  apply (unknown_platform_validates lenient "int main() { return 0; }" "stm32").
  vm_compute. reflexivity.
Defined.

Lemma arduino_validation_success_witness :
  exists v,
    Validator.code_validator_tool lenient sketch "Arduino" = Validator.Validated v
    /\ (Validator.v_success v = true <-> Validator.v_errors v = [])
    /\ (Validator.v_success v = true <->
        PyStr.contains "setup()" sketch = true
        /\ PyStr.contains "loop()" sketch = true
        /\ (PyStr.contains "WiFi." sketch = true ->
            PyStr.contains "#include <WiFi.h>" sketch = true))
    /\ Validator.v_suggestions v = [].
Proof.
  apply (arduino_validation_success lenient sketch "Arduino").
  by_evaluation.
Defined.

End MoreRuns.
